(** * cog: task lifecycle and the diff-based character checker

    A shallow embedding of [cog/task.py] and [cog/tasks/chartest.py]
    (Python 2).  Python byte strings are [string]s, Python integers are
    [Z], dictionaries used as maps are [gmap]s, and code that talks to the
    shell, the file system or the document store is written in a small
    state-and-exception monad over an explicit world. *)

From Stdlib Require Import ZArith NArith Ascii String List Lia Sorted.
From stdpp Require Import base option list strings gmap sorting.

Local Open Scope string_scope.
Local Open Scope Z_scope.

(** ** Python 2 byte-string primitives *)

Module Py.

Definition chr (n : N) : ascii := ascii_of_N n.
Definition ord (c : ascii) : N := N_of_ascii c.

Definition TAB : ascii := chr 9.
Definition LF : ascii := chr 10.
Definition CR : ascii := chr 13.
Definition DQUOTE : ascii := chr 34.

(** [c.isspace()] in the C locale: space, \t, \n, \v, \f, \r. *)
Definition isspace (c : ascii) : bool :=
  let n := ord c in (n =? 32)%N || ((9 <=? n)%N && (n <=? 13)%N).

(** [s[:n]] *)
Fixpoint slice_to (n : nat) (s : string) : string :=
  match n, s with
  | S k, String c s' => String c (slice_to k s')
  | _, _ => EmptyString
  end.

(** [s.startswith(p)] *)
Fixpoint startswith (p s : string) : bool :=
  match p, s with
  | EmptyString, _ => true
  | String a p', String b s' => Ascii.eqb a b && startswith p' s'
  | String _ _, EmptyString => false
  end.

(** [s.endswith(p)] *)
Fixpoint endswith (p s : string) : bool :=
  String.eqb p s ||
  match s with
  | EmptyString => false
  | String _ s' => endswith p s'
  end.

(** [needle in hay] *)
Fixpoint contains (needle hay : string) : bool :=
  startswith needle hay ||
  match hay with
  | EmptyString => false
  | String _ hay' => contains needle hay'
  end.

(** [s.count(y)] for a one-character [y] *)
Fixpoint count (y : ascii) (s : string) : Z :=
  match s with
  | EmptyString => 0
  | String c s' => (if Ascii.eqb c y then 1 else 0) + count y s'
  end.

(** [len(s)] *)
Definition len (s : string) : Z := Z.of_nat (String.length s).

(** [s.rstrip()] *)
Fixpoint rstrip (s : string) : string :=
  match s with
  | EmptyString => EmptyString
  | String c s' =>
      match rstrip s' with
      | EmptyString => if isspace c then EmptyString else String c EmptyString
      | r => String c r
      end
  end.

(** [s.lstrip()] *)
Fixpoint lstrip (s : string) : string :=
  match s with
  | EmptyString => EmptyString
  | String c s' => if isspace c then lstrip s' else s
  end.

Definition strip (s : string) : string := rstrip (lstrip s).

(** Put a character in front of the first piece of a list of pieces. *)
Definition cons_first (c : ascii) (pieces : list string) : list string :=
  match pieces with
  | [] => [String c EmptyString]
  | p :: ps => String c p :: ps
  end.

(** [s.split(sep)] for a non-empty [sep]: the pieces between the
    non-overlapping occurrences of [sep], found left to right.  [skip]
    counts the characters of a separator that was just matched and
    remain to be passed over. *)
Fixpoint split_from (sep s : string) (skip : nat) : list string :=
  match s with
  | EmptyString => [EmptyString]
  | String c s' =>
      match skip with
      | S k => split_from sep s' k
      | O =>
          if startswith sep s
          then EmptyString :: split_from sep s' (String.length sep - 1)
          else cons_first c (split_from sep s' 0)
      end
  end.

Definition split (sep s : string) : list string := split_from sep s 0.

(** [s.splitlines()] on a byte string: the line breaks are \n, \r and
    \r\n; a final line break does not open an empty last line. *)
Fixpoint splitlines (s : string) : list string :=
  match s with
  | EmptyString => []
  | String c s' =>
      if Ascii.eqb c LF then EmptyString :: splitlines s'
      else if Ascii.eqb c CR then
        match s' with
        | String c' s'' =>
            if Ascii.eqb c' LF then EmptyString :: splitlines s''
            else EmptyString :: splitlines s'
        | EmptyString => [EmptyString]
        end
      else cons_first c (splitlines s')
  end.

(** [sep.join(pieces)] *)
Fixpoint join (sep : string) (pieces : list string) : string :=
  match pieces with
  | [] => EmptyString
  | [p] => p
  | p :: ps => p +:+ sep +:+ join sep ps
  end.

(** Decimal digits. *)
Definition digit_char (d : N) : ascii := chr (48 + d).

Definition digit_val (c : ascii) : option N :=
  let n := ord c in
  if (48 <=? n)%N && (n <=? 57)%N then Some (n - 48)%N else None.

Fixpoint dec_digits (fuel : nat) (n : N) (acc : string) : string :=
  match fuel with
  | O => acc
  | S f =>
      let acc' := String (digit_char (n mod 10)) acc in
      if (n <? 10)%N then acc' else dec_digits f (n / 10) acc'
  end.

Definition str_of_N (n : N) : string :=
  dec_digits (S (N.to_nat (N.log2 n))) n EmptyString.

(** [str(z)], which is also what ["%s" % z] and ["%i" % z] print. *)
Definition str_of_Z (z : Z) : string :=
  if z <? 0 then String "-" (str_of_N (Z.abs_N z)) else str_of_N (Z.abs_N z).

(** Lower-case hexadecimal digits, for [hex]. *)
Definition hex_char (d : N) : ascii :=
  if (d <? 10)%N then chr (48 + d) else chr (87 + d).

Fixpoint hex_digits (fuel : nat) (n : N) (acc : string) : string :=
  match fuel with
  | O => acc
  | S f =>
      let acc' := String (hex_char (n mod 16)) acc in
      if (n <? 16)%N then acc' else hex_digits f (n / 16) acc'
  end.

(** [hex(n)] for a non-negative [n] *)
Definition hex (n : N) : string :=
  "0x" +:+ hex_digits (S (N.to_nat (N.log2 n))) n EmptyString.

Fixpoint parse_digits (s : string) (acc : N) : option N :=
  match s with
  | EmptyString => Some acc
  | String c s' =>
      match digit_val c with
      | Some d => parse_digits s' (10 * acc + d)%N
      | None => None
      end
  end.

Definition parse_unsigned (s : string) : option N :=
  match s with
  | EmptyString => None
  | _ => parse_digits s 0%N
  end.

(** [int(s)]: surrounding white space is dropped, one sign is allowed,
    at least one decimal digit is required.  [None] is [ValueError]. *)
Definition int (s : string) : option Z :=
  match strip s with
  | EmptyString => None
  | String c t =>
      if Ascii.eqb c "-" then n ← parse_unsigned t; Some (- Z.of_N n)
      else if Ascii.eqb c "+" then n ← parse_unsigned t; Some (Z.of_N n)
      else n ← parse_unsigned (String c t); Some (Z.of_N n)
  end.

(** Every character of [s] passes the test [P]. *)
Fixpoint all_chars (P : ascii -> bool) (s : string) : bool :=
  match s with
  | EmptyString => true
  | String c s' => P c && all_chars P s'
  end.

(** A character other than [c0]. *)
Definition other_than (c0 : ascii) (c : ascii) : bool := negb (Ascii.eqb c c0).

Definition is_digit (c : ascii) : bool :=
  match digit_val c with Some _ => true | None => false end.

Definition not_space (c : ascii) : bool := negb (isspace c).

(** [range(a, b)] *)
Definition range (a b : N) : list N :=
  map N.of_nat (seq (N.to_nat a) (N.to_nat b - N.to_nat a)).

End Py.

(** ** [cog/task.py]: helpers and the task scaffolding *)

Module Task.

(** The values a job document's [kwargs] can hold (JSON scalars). *)
Inductive value :=
| VNone
| VBool (b : bool)
| VInt (z : Z)
| VStr (s : string).

(** Python truth value: [None], [False], [0] and [''] are false. *)
Definition truthy (v : value) : bool :=
  match v with
  | VNone => false
  | VBool b => b
  | VInt z => negb (z =? 0)
  | VStr s => negb (String.eqb s "")
  end.

(** [v is None] *)
Definition is_None (v : value) : bool :=
  match v with VNone => true | _ => false end.

Definition type_name (v : value) : string :=
  match v with
  | VNone => "NoneType"
  | VBool _ => "bool"
  | VInt _ => "int"
  | VStr _ => "str"
  end.

(** [str(v)], also the text that [%s] inserts. *)
Definition str (v : value) : string :=
  match v with
  | VNone => "None"
  | VBool true => "True"
  | VBool false => "False"
  | VInt z => Py.str_of_Z z
  | VStr s => s
  end.

(** A raised object: its class, whether the class derives from
    [Exception] (as opposed to [SystemExit], [KeyboardInterrupt] and
    [GeneratorExit], which derive from [BaseException] only), and
    [str(e)]. *)
Record exn := mk_exn {
  exc_class : string;
  exc_is_Exception : bool;
  exc_str : string
}.

Definition AttributeError (msg : string) : exn := mk_exn "AttributeError" true msg.
Definition TypeError (msg : string) : exn := mk_exn "TypeError" true msg.
Definition NameError (msg : string) : exn := mk_exn "NameError" true msg.
Definition Exception (msg : string) : exn := mk_exn "Exception" true msg.

Inductive outcome (A : Type) :=
| Ok (a : A)
| Raise (e : exn).
Arguments Ok {A} a.
Arguments Raise {A} e.

(** Stateful, fallible code: a state goes in, an outcome and a state
    come out. *)
Definition M (S A : Type) : Type := S -> outcome A * S.

Definition ret {S A} (a : A) : M S A := fun s => (Ok a, s).
Definition raise {S A} (e : exn) : M S A := fun s => (Raise e, s).
Definition bind {S A B} (m : M S A) (k : A -> M S B) : M S B :=
  fun s => match m s with
           | (Ok a, s') => k a s'
           | (Raise e, s') => (Raise e, s')
           end.
Definition lift_outcome {S A} (o : outcome A) : M S A := fun s => (o, s).

Declare Scope py_scope.
Delimit Scope py_scope with py.
Notation "x <- m ;; k" := (bind m (fun x => k))
  (at level 100, m at next level, right associativity) : py_scope.
Notation "m ;; k" := (bind m (fun _ => k))
  (at level 100, right associativity) : py_scope.
Local Open Scope py_scope.

(** [for x in xs: body x] *)
Fixpoint for_each {S A} (xs : list A) (body : A -> M S unit) : M S unit :=
  match xs with
  | [] => ret tt
  | x :: xs' => body x ;; for_each xs' body
  end.

(** What the process does to the outside, in the order it happens. *)
Inductive event :=
| Call (cmd : string)              (* [subprocess.call] under bash *)
| CheckOutput (cmd : string)       (* [subprocess.check_output] under bash *)
| WriteFile (path contents : string).

Definition trace := list event.

(** The machine the task runs on.  Every answer may depend on what the
    process has done so far. *)
Record host := {
  abspath_of : string -> string;                    (* [os.path.abspath] *)
  path_exists : trace -> string -> bool;            (* [os.path.exists] *)
  path_isfile : trace -> string -> bool;            (* [os.path.isfile] *)
  run_call : trace -> string -> outcome Z;          (* return code *)
  run_check_output : trace -> string -> outcome string;
  run_write : trace -> string -> string -> outcome unit;
  time_time : trace -> Z;                           (* [time.time()] *)
  getfqdn : string                                  (* [socket.getfqdn()] *)
}.

Section Helpers.
Context (h : host).

Definition subprocess_call (cmd : string) : M trace Z :=
  fun tr => (run_call h tr cmd, (tr ++ [Call cmd])%list).

Definition subprocess_check_output (cmd : string) : M trace string :=
  fun tr => (run_check_output h tr cmd, (tr ++ [CheckOutput cmd])%list).

(** [with open(path, "w") as f: f.write(contents)] *)
Definition write_file (path contents : string) : M trace unit :=
  fun tr => (run_write h tr path contents, (tr ++ [WriteFile path contents])%list).

(** The attribute lookup [b.startswith] on a value that is not a
    string. *)
Definition no_startswith (v : value) : exn :=
  AttributeError ("'" +:+ type_name v +:+ "' object has no attribute 'startswith'").

(** [os.path.join(a, b)] (posixpath). *)
Definition os_path_join (a : string) (b : value) : outcome string :=
  match b with
  | VStr b =>
      Ok (if Py.startswith "/" b then b
          else if String.eqb a "" || Py.endswith "/" a then a +:+ b
          else a +:+ "/" +:+ b)
  | _ => Raise (no_startswith b)
  end.

(** [os.path.abspath(path)] *)
Definition os_path_abspath (path : value) : outcome string :=
  match path with
  | VStr p => Ok (abspath_of h p)
  | _ => Raise (no_startswith path)
  end.

(** [' '.join(items)]: every item has to be a string. *)
Fixpoint join_items (i : nat) (items : list value) : outcome (list string) :=
  match items with
  | [] => Ok []
  | VStr s :: rest =>
      match join_items (S i) rest with
      | Ok ss => Ok (s :: ss)
      | Raise e => Raise e
      end
  | v :: _ =>
      Raise (TypeError ("sequence item " +:+ Py.str_of_Z (Z.of_nat i)
                        +:+ ": expected string, " +:+ type_name v +:+ " found"))
  end.

Definition space_join (items : list value) : outcome string :=
  match join_items 0 items with
  | Ok ss => Ok (Py.join " " ss)
  | Raise e => Raise e
  end.

(** [system(cmd, work_dir=None)]; the [print] is not modelled. *)
Definition system (cmd : string) (work_dir : value) : M trace Z :=
  let cmd := if truthy work_dir
             then ("cd " +:+ str work_dir +:+ " && ") +:+ cmd else cmd in
  subprocess_call cmd.

(** [system_output(cmd, work_dir=None)] *)
Definition system_output (cmd : string) (work_dir : value) : M trace string :=
  let cmd := if truthy work_dir
             then ("cd " +:+ str work_dir +:+ " && ") +:+ cmd else cmd in
  subprocess_check_output cmd.

(** [git_clone(url, sha, target=None, work_dir=None)]; the result is
    [None] when the target directory is already there. *)
Definition git_clone (url sha target : value) (work_dir : string)
  : M trace (option Z) :=
  let target := if is_None target then sha else target in
  target <- (if negb (String.eqb work_dir "")
             then (t <- lift_outcome (os_path_join work_dir target) ;; ret (VStr t))
             else ret target) ;;
  target <- lift_outcome (os_path_abspath target) ;;
  fun tr =>
    if negb (path_exists h tr target) then
      (cmd <- lift_outcome
                (space_join [VStr "git clone"; url; VStr target;
                             VStr ("&& cd " +:+ target +:+ " && ");
                             VStr "git checkout"; sha; VStr "&> /dev/null"]) ;;
       code <- system cmd VNone ;;
       ret (Some code)) tr
    else ret None tr.

(** [git_fetch(url, repo_dir)] *)
Definition git_fetch (url repo_dir : value) : M trace Z :=
  cmd <- lift_outcome (space_join [VStr "git remote add fork"; url]) ;;
  system cmd repo_dir ;;
  system "git fetch fork" repo_dir.

(** [get_changed_files(sha, repo_dir)] *)
Definition get_changed_files (sha repo_dir : value) : M trace (list string) :=
  let cmd := "git diff --name-only ..." +:+ str sha in
  out <- system_output cmd repo_dir ;;
  ret (Py.splitlines out).

(** [get_diff(file, sha, repo_dir)] *)
Definition get_diff (file : string) (sha repo_dir : value) : M trace string :=
  fun tr =>
    if path_isfile h tr file then
      system_output ("git diff -U0 ..." +:+ str sha +:+ " " +:+ file) repo_dir tr
    else
      (system ("git checkout " +:+ str sha +:+ " " +:+ file) repo_dir ;;
       system_output ("git diff -U0 ..." +:+ str sha +:+ " " +:+ file) repo_dir) tr.

End Helpers.

(** *** Task results and job documents *)

(** An entry of [results['attachments']]. *)
Record attachment := {
  filename : string;
  contents : string;
  link_name : option string
}.

(** An entry of [results['attach_links']]: [{'id': .., 'name': ..}]. *)
Record attach_link := {
  link_id : string;
  link_shown : string
}.

(** The dictionary a task body returns.  An optional field is a key
    that may be absent. *)
Record results := {
  success : bool;
  reason : option string;
  code : option string;
  errors : option (gmap string (list string));
  attachments : option (list attachment);
  attach_links : option (list attach_link)
}.

(** The job document. *)
Record document := {
  doc_id : string;
  doc_rev : N;
  doc_kwargs : option (gmap string value);
  doc_started : option Z;
  doc_node : option string;
  doc_results : option results;
  doc_completed : option Z
}.

Definition set_rev (rev : N) (d : document) : document :=
  {| doc_id := doc_id d; doc_rev := rev; doc_kwargs := doc_kwargs d;
     doc_started := doc_started d; doc_node := doc_node d;
     doc_results := doc_results d; doc_completed := doc_completed d |}.

Definition set_started (t : Z) (node : string) (d : document) : document :=
  {| doc_id := doc_id d; doc_rev := doc_rev d; doc_kwargs := doc_kwargs d;
     doc_started := Some t; doc_node := Some node;
     doc_results := doc_results d; doc_completed := doc_completed d |}.

Definition set_results (r : results) (d : document) : document :=
  {| doc_id := doc_id d; doc_rev := doc_rev d; doc_kwargs := doc_kwargs d;
     doc_started := doc_started d; doc_node := doc_node d;
     doc_results := Some r; doc_completed := doc_completed d |}.

Definition set_completed (t : Z) (d : document) : document :=
  {| doc_id := doc_id d; doc_rev := doc_rev d; doc_kwargs := doc_kwargs d;
     doc_started := doc_started d; doc_node := doc_node d;
     doc_results := doc_results d; doc_completed := Some t |}.

(** Modelled from the spec: the document store behind [cog.db], which is
    not among the sources.  It keeps documents by id, keeps attachments
    next to them, advances a document's version token on every write and
    refuses a write that carries a stale token. *)
Record store := {
  docs : gmap string document;
  blobs : gmap (string * string) string
}.

Definition ResourceNotFound (id : string) : exn :=
  mk_exn "ResourceNotFound" true id.
Definition ResourceConflict (id : string) : exn :=
  mk_exn "ResourceConflict" true id.

(** Modelled from the spec: [get(id) -> Document] of the missing store
    adapter. *)
Definition store_get (id : string) (db : store) : outcome document :=
  match docs db !! id with
  | Some d => Ok d
  | None => Raise (ResourceNotFound id)
  end.

(** Modelled from the spec: [save(Document)] of the missing store
    adapter; a new document is created, a current one is replaced and
    its token advanced, a stale one is refused. *)
Definition store_save (d : document) (db : store) : outcome store :=
  match docs db !! doc_id d with
  | Some cur =>
      if (doc_rev cur =? doc_rev d)%N
      then Ok {| docs := <[doc_id d := set_rev (doc_rev d + 1) d]> (docs db);
                 blobs := blobs db |}
      else Raise (ResourceConflict (doc_id d))
  | None =>
      Ok {| docs := <[doc_id d := set_rev (doc_rev d + 1) d]> (docs db);
            blobs := blobs db |}
  end.

(** Modelled from the spec: [putAttachment(Document, content, filename)]
    of the missing store adapter; the write advances the stored token,
    and the new token is what the result carries. *)
Definition store_put_attachment (d : document) (content name : string)
    (db : store) : outcome (N * store) :=
  match docs db !! doc_id d with
  | Some cur =>
      if (doc_rev cur =? doc_rev d)%N
      then Ok ((doc_rev cur + 1)%N,
               {| docs := <[doc_id d := set_rev (doc_rev cur + 1) cur]> (docs db);
                  blobs := <[(doc_id d, name) := content]> (blobs db) |})
      else Raise (ResourceConflict (doc_id d))
  | None => Raise (ResourceNotFound (doc_id d))
  end.

(** *** The [Task] class *)

(** A [Task] object together with the world it acts on. *)
Record state := {
  self_document : document;     (* [self.document] *)
  self_work_dir : string;       (* [self.work_dir] *)
  database : store;             (* what [self.database] talks to *)
  shell : trace
}.

Definition with_document (d : document) (st : state) : state :=
  {| self_document := d; self_work_dir := self_work_dir st;
     database := database st; shell := shell st |}.

Definition with_database (db : store) (st : state) : state :=
  {| self_document := self_document st; self_work_dir := self_work_dir st;
     database := db; shell := shell st |}.

Definition with_shell (tr : trace) (st : state) : state :=
  {| self_document := self_document st; self_work_dir := self_work_dir st;
     database := database st; shell := tr |}.

(** A task body: [run(self, document, work_dir)]. *)
Definition body := document -> string -> M trace results.

Section Lifecycle.
Context (h : host).

(** Run shell-level code inside the task. *)
Definition in_shell {A} (m : M trace A) : M state A :=
  fun st => let '(o, tr) := m (shell st) in (o, with_shell tr st).

(** [self.database.save(self.document)] *)
Definition save_document : M state unit :=
  fun st => match store_save (self_document st) (database st) with
            | Ok db => (Ok tt, with_database db st)
            | Raise e => (Raise e, st)
            end.

(** [self.document = self.database[self.document.id]] *)
Definition reload_document : M state unit :=
  fun st => match store_get (doc_id (self_document st)) (database st) with
            | Ok d => (Ok tt, with_document d st)
            | Raise e => (Raise e, st)
            end.

(** [self.database.put_attachment(self.document, contents, filename=..)] *)
Definition put_attachment (a : attachment) : M state unit :=
  fun st => match store_put_attachment (self_document st) (contents a)
                    (filename a) (database st) with
            | Ok (rev, db) =>
                (Ok tt, with_database db
                          (with_document (set_rev rev (self_document st)) st))
            | Raise e => (Raise e, st)
            end.

Definition update_document (f : document -> document) : M state unit :=
  fun st => (Ok tt, with_document (f (self_document st)) st).

(** [Task.__init__], given the directory [tempfile.mkdtemp()] made. *)
Definition init (db : store) (tr : trace) (doc_id work_dir : string)
  : outcome state :=
  match store_get doc_id db with
  | Ok d => Ok {| self_document := d; self_work_dir := work_dir;
                  database := db; shell := tr |}
  | Raise e => Raise e
  end.

(** [Task.start] *)
Definition start : M state unit :=
  (fun st => update_document
               (set_started (time_time h (shell st)) (getfqdn h)) st) ;;
  save_document ;;
  reload_document.

(** The links [finish] adds for the attachments that name one. *)
Definition links_of (atts : list attachment) : list attach_link :=
  flat_map (fun a => match link_name a with
                     | Some n => [{| link_id := filename a; link_shown := n |}]
                     | None => []
                     end) atts.

(** [results] after the second loop of [finish] and the [del]: both
    act on the very dictionary the caller passed, through
    [self.document['results']]. *)
Definition strip_attachments (r : results) (atts : list attachment) : results :=
  {| success := success r; reason := reason r; code := code r;
     errors := errors r;
     attachments := None;
     attach_links :=
       match links_of atts with
       | [] => attach_links r
       | links => Some (default [] (attach_links r) ++ links)%list
       end |}.

(** [Task.finish] *)
Definition finish (r : results) : M state unit :=
  match attachments r with
  | Some atts =>
      for_each atts put_attachment ;;
      reload_document ;;
      update_document (set_results r) ;;
      let r' := strip_attachments r atts in
      update_document (set_results r') ;;
      save_document ;;
      reload_document ;;
      update_document (set_results r') ;;
      (fun st => update_document (set_completed (time_time h (shell st))) st) ;;
      save_document
  | None =>
      update_document (set_results r) ;;
      update_document (set_results r) ;;
      (fun st => update_document (set_completed (time_time h (shell st))) st) ;;
      save_document
  end.

(** The result [__call__] makes up when the body raises. *)
Definition unhandled (e : exn) : results :=
  {| success := false;
     reason := Some ("Unhandled exception in task: " +:+ exc_str e);
     code := None; errors := None; attachments := None;
     attach_links := None |}.

(** [Task.__call__]: [except Exception] lets through what does not
    derive from [Exception]. *)
Definition call (run : body) : M state unit :=
  start ;;
  r <- (fun st =>
          match in_shell (run (self_document st) (self_work_dir st)) st with
          | (Raise e, st') =>
              if exc_is_Exception e then (Ok (unhandled e), st')
              else (Raise e, st')
          | ok => ok
          end) ;;
  finish r.

(** [Task.run] of the base class. *)
Definition run : body :=
  fun _ _ => raise (Exception "Task.run: Cannot call run method on base class").

End Lifecycle.

End Task.

(** ** [cog/tasks/chartest.py] *)

Module Chartest.
Import Task.
Local Open Scope py_scope.

(** Chars that trigger a failure. *)
Definition CRITICAL_CHARS : list ascii :=
  map Py.chr (Py.range 0x00 (0x09 + 1) ++ Py.range 0x0b (0x1f + 1) ++ [0x7f%N])%list.

(** Only look at files with extensions: *)
Definition CODE_EXTS : list string := [".py"; ".cc"; ".hh"; ".h"; ".c"].

Definition nl : string := String Py.LF EmptyString.
Definition dq : string := String Py.DQUOTE EmptyString.

(** The page [print_HTML] builds.  The dictionary is walked in the
    order [map_to_list] gives. *)
Definition html_row (filename : string) (error_list : list string) : string :=
  let passed := match error_list with [] => true | _ => false end in
  Py.join nl
    [ "";
      "            <tr> ";
      "            <th> " +:+ filename +:+ " </th>    ";
      "            <td style=" +:+ dq +:+ "color: "
        +:+ (if passed then "green" else "red") +:+ dq +:+ "> "
        +:+ (if passed then "PASS" else "FAIL") +:+ " </td>";
      "            <td>  "
        +:+ (if negb passed then Py.join "<br /> " error_list else "")
        +:+ " </td>";
      "            </tr>";
      "        " ].

Definition html_page (errors : gmap string (list string)) : string :=
  let nfails :=
    Z.of_nat (length (filter (fun i => i <> []) (map snd (map_to_list errors)))) in
  let overall_pass := nfails =? 0 in
  let head :=
    Py.join nl
      [ "<html>";
        "        <head>";
        "        <title> White Space and ASCII Checker </title>";
        "        </head>";
        "        <body>";
        "        <h1> White Space and ASCII Checker </h1>";
        "        <h2 style=" +:+ dq +:+ "color: "
          +:+ (if overall_pass then "green" else "red") +:+ dq +:+ "> "
          +:+ (if overall_pass then "All Files Passed"
               else Py.str_of_Z nfails +:+ " Files Failed") +:+ " </h2>";
        "        <table border>";
        "    " ] in
  let rows :=
    fold_left (fun page '(filename, error_list) =>
                 page +:+ html_row filename error_list)
              (map_to_list errors) head in
  rows +:+ Py.join nl
             [ "";
               "           </table>";
               "        </body>";
               "    </html>";
               "    " ].

Section Report.
Context (h : host).

(** [print_HTML(errors, out_file)] *)
Definition print_HTML (errors : gmap string (list string)) (out_file : string)
  : M trace string :=
  let web_page := html_page errors in
  write_file h out_file web_page ;;
  ret web_page.

End Report.

(** The marker git prints for a file that does not end in a newline. *)
Definition NO_EOF_MARKER : string := "\ No newline at end of file".

(** The value the line counter has when no hunk header gave one. *)
Definition SENTINEL : Z := -999.

(** The first three statements of the [try] block of [check_file]: the
    text that is handed to [int].  [None] is the [IndexError] of
    [line.split("+")[1]] on a line without "+". *)
Definition start_text (line : string) : option string :=
  match Py.split "+" line with
  | _ :: piece :: _ =>
      let line_context := hd EmptyString (Py.split "@@" piece) in
      Some (if Py.contains "," line_context
            then hd EmptyString (Py.split "," line_context)
            else line_context)
  | _ => None
  end.

(** The [try] block of [check_file]: the new-file start line of a hunk
    header; [None] stands for any exception ([IndexError] above,
    [ValueError] from [int]). *)
Definition hunk_start (line : string) : option Z :=
  match start_text line with
  | Some line_number => Py.int line_number
  | None => None
  end.

(** The trailing-whitespace check on one added line. *)
Definition trailing_errors (line_number : Z) (line : string) : list string :=
  let trailing_white_space := Py.len line - Py.len (Py.rstrip line) in
  if trailing_white_space =? 0 then []
  else [ Py.str_of_Z trailing_white_space +:+ " trailing whitespace "
         +:+ (if trailing_white_space >? 1 then "chars" else "char")
         +:+ " on line " +:+ Py.str_of_Z line_number
         +:+ " :  ' " +:+ line +:+ " '" ].

(** The body of [for y in CRITICAL_CHARS] for one [y]. *)
Definition char_error (line_number : Z) (line : string) (y : ascii) : list string :=
  let count := Py.count y line in
  if count =? 0 then []
  else
    let error := Py.str_of_Z count +:+ " copies of char " +:+ Py.hex (Py.ord y)
                 +:+ " on line " +:+ Py.str_of_Z line_number
                 +:+ " : ' " +:+ line +:+ " '" in
    [ if (Py.ord y =? 0x09)%N then error +:+ " => new TABs" else error ].

Definition char_errors (line_number : Z) (line : string) : list string :=
  flat_map (char_error line_number line) CRITICAL_CHARS.

(** Is this line past the [continue]: an added line? *)
Definition is_added (line : string) : bool :=
  negb ((Py.len line =? 0)
        || negb (String.eqb (Py.slice_to 1 line) "+")
        || String.eqb (Py.slice_to 3 line) "+++").

(** The counter after the hunk-header block at the top of the loop
    body. *)
Definition reseed (line_number : Z) (line : string) : Z :=
  if String.eqb (Py.slice_to 2 line) "@@"
  then match hunk_start line with
       | Some n => n
       | None => SENTINEL
       end
  else line_number.

(** One turn of the loop of [check_file] on the pair
    [(line_number, errors)]. *)
Definition check_line (st : Z * list string) (line : string) : Z * list string :=
  let '(line_number, errors) := st in
  let line_number := reseed line_number line in
  if negb (is_added line) then (line_number, errors)
  else
    (line_number + 1,
     (errors ++ trailing_errors line_number line ++ char_errors line_number line)%list).

(** [check_file(diff)] *)
Definition check_file (diff : string) : list string :=
  let errors := if Py.contains NO_EOF_MARKER diff then ["No EOF newline"] else [] in
  snd (fold_left check_line (Py.splitlines diff) (SENTINEL, errors)).

(** The added lines of a diff, each with the value [line_number] has
    when the loop of [check_file] reaches its checks: the records the
    error messages are printed from. *)
Fixpoint added_lines (line_number : Z) (lines : list string) : list (Z * string) :=
  match lines with
  | [] => []
  | line :: rest =>
      let n := reseed line_number line in
      if is_added line then (n, line) :: added_lines (n + 1) rest
      else added_lines n rest
  end.

Definition added_records (diff : string) : list (Z * string) :=
  added_lines SENTINEL (Py.splitlines diff).

(** The messages of one added line. *)
Definition line_errors (rec : Z * string) : list string :=
  (trailing_errors rec.1 rec.2 ++ char_errors rec.1 rec.2)%list.

Section Run.
Context (h : host).

(** The loop of [check_changed_files]. *)
Fixpoint check_each (files : list string) (sha repo_dir : value)
    (success : bool) (errors : gmap string (list string))
  : M trace (bool * gmap string (list string)) :=
  match files with
  | [] => ret (success, errors)
  | changed_file :: rest =>
      diff <- get_diff h changed_file sha repo_dir ;;
      let file_errors := check_file diff in
      check_each rest sha repo_dir
        (match file_errors with [] => success | _ => false end)
        (<[changed_file := file_errors]> errors)
  end.

(** [check_changed_files(sha, repo_dir)] *)
Definition check_changed_files (sha repo_dir : value)
  : M trace (bool * gmap string (list string)) :=
  changed_files <- get_changed_files h sha repo_dir ;;
  let changed_code_files :=
    filter (fun file => existsb (fun ext => Py.endswith ext file) CODE_EXTS = true)
           changed_files in
  check_each changed_code_files sha repo_dir true ∅.

(** Reading a name that is neither a local of the function nor bound
    in the module. *)
Definition load_name (locals : gmap string bool) (name : string) : M trace bool :=
  match locals !! name with
  | Some v => ret v
  | None => raise (NameError ("global name '" +:+ name +:+ "' is not defined"))
  end.

Definition failure (why : string) (exit_code : option string) : results :=
  {| success := false; reason := Some why; code := exit_code;
     errors := None; attachments := None; attach_links := None |}.

(** [str(code)] for what [git_clone] returns. *)
Definition str_code (code : option Z) : string :=
  match code with
  | None => "None"
  | Some c => Py.str_of_Z c
  end.

(** [code is None or (code != 0 and code != 1)] *)
Definition unusable (code : option Z) : bool :=
  match code with
  | None => true
  | Some c => negb (c =? 0) && negb (c =? 1)
  end.

(** The three input checks at the top of [CharCheck.run]. *)
Definition validate (sha git_url base_repo_ref base_repo_url : value)
  : option results :=
  if is_None sha then Some (failure "missing revision id" None)
  else if is_None git_url then Some (failure "missing git url" None)
  else if (truthy base_repo_url && is_None base_repo_ref)
          || (truthy base_repo_ref && is_None base_repo_url)
  then Some (failure "incomplete base specification for merge" None)
  else None.

(** [CharCheck.run] from the check of the changed files on.  The pair
    that [check_changed_files] returns is bound to the names [sucsess]
    and [errors]; the dictionary at the end reads [success]. *)
Definition check_and_report (sha repo_dir : value) : M trace results :=
  checked <- check_changed_files sha repo_dir ;;
  let '(sucsess, errors) := checked in
  web_page <- print_HTML h errors "char_test.html" ;;
  let attachments :=
    [ {| filename := "char_test.html"; contents := web_page;
         link_name := Some "CharTest" |} ] in
  success <- load_name {[ "sucsess" := sucsess ]} "success" ;;
  ret {| success := success; reason := None; code := None;
         errors := Some errors; attachments := Some attachments;
         attach_links := None |}.

(** [CharCheck.run] from the fetch on. *)
Definition fetch_and_check (sha git_url base_repo_ref : value) (work_dir : string)
  : M trace results :=
  repo_dir <- (if negb (String.eqb work_dir "")
               then (d <- lift_outcome (os_path_join work_dir base_repo_ref) ;;
                     ret (VStr d))
               else ret base_repo_ref) ;;
  code <- git_fetch h git_url repo_dir ;;
  if unusable (Some code)
  then ret (failure "git clone failed" (Some (str_code (Some code))))
  else check_and_report sha repo_dir.

(** [CharCheck.run] from the clone on. *)
Definition clone_and_check (sha git_url base_repo_ref base_repo_url : value)
    (work_dir : string) : M trace results :=
  code <- git_clone h base_repo_url base_repo_ref base_repo_ref work_dir ;;
  if unusable code
  then ret (failure "git clone failed" (Some (str_code code)))
  else fetch_and_check sha git_url base_repo_ref work_dir.

(** [CharCheck.run(document, work_dir)] *)
Definition run : body :=
  fun document work_dir =>
    let kwargs := default ∅ (doc_kwargs document) in
    let sha := default VNone (kwargs !! "sha") in
    let git_url := default VNone (kwargs !! "git_url") in
    let base_repo_ref := default VNone (kwargs !! "base_repo_ref") in
    let base_repo_url := default VNone (kwargs !! "base_repo_url") in
    match validate sha git_url base_repo_ref base_repo_url with
    | Some r => ret r
    | None => clone_and_check sha git_url base_repo_ref base_repo_url work_dir
    end.

End Run.

End Chartest.

(** ** Unified diffs, as [git diff] prints them for one file *)

Module UnifiedDiff.

(** A range of a hunk header: the start line and, when it is written,
    the number of lines. *)
Record line_range := {
  range_start : N;
  range_count : option N
}.

(** A range written without a count covers one line. *)
Definition count_of (r : line_range) : N := default 1%N (range_count r).

Definition render_range (r : line_range) : string :=
  Py.str_of_N (range_start r) +:+
  match range_count r with
  | Some c => "," +:+ Py.str_of_N c
  | None => ""
  end.

(** A hunk: its header [@@ -old +new @@ heading] and its body lines,
    each with its marker. *)
Record hunk := {
  old_range : line_range;
  new_range : line_range;
  heading : string;
  hunk_body : list string
}.

Definition render_header (old new : line_range) (heading : string) : string :=
  "@@ -" +:+ render_range old +:+ " +" +:+ render_range new +:+ " @@" +:+ heading.

Definition hunk_lines (k : hunk) : list string :=
  render_header (old_range k) (new_range k) (heading k) :: hunk_body k.

(** The diff of one file: the lines before the first hunk
    ([diff --git], [index], [---], [+++]) and the hunks. *)
Record file_diff := {
  preamble : list string;
  hunks : list hunk
}.

Definition diff_lines (d : file_diff) : list string :=
  (preamble d ++ flat_map hunk_lines (hunks d))%list.

(** The text: every line ends in a newline. *)
Definition render (d : file_diff) : string :=
  fold_right (fun line text => line +:+ String Py.LF text) EmptyString (diff_lines d).

(** A line of the text holds no newline: the newline ends it. *)
Definition lf_free (s : string) : bool := Py.all_chars (Py.other_than Py.LF) s.

(** A line holds no line break at all. *)
Definition one_line (s : string) : bool :=
  Py.all_chars (fun c => Py.other_than Py.LF c && Py.other_than Py.CR c) s.

(** The line without the carriage return of a CRLF line end. *)
Fixpoint chomp (s : string) : string :=
  match s with
  | EmptyString => EmptyString
  | String c s' =>
      match s' with
      | EmptyString => if Ascii.eqb c Py.CR then EmptyString else s
      | String _ _ => String c (chomp s')
      end
  end.

(** The only carriage return of the line, if it has one, is its last
    character: together with the newline it is a CRLF line end.  A
    carriage return anywhere else is a bare one. *)
Definition crlf_only (s : string) : bool := one_line (chomp s).

(** A body line starts with one of the markers [' '], ['+'], ['-'] and
    ['\']. *)
Definition marker (line : string) : option ascii :=
  match line with
  | String c _ =>
      if Ascii.eqb c " " || Ascii.eqb c "+" || Ascii.eqb c "-" || Ascii.eqb c "\"
      then Some c else None
  | EmptyString => None
  end.

Definition has_marker (cs : list ascii) (line : string) : bool :=
  match marker line with
  | Some c => existsb (Ascii.eqb c) cs
  | None => false
  end.

(** A line before the first hunk is no hunk header, and starts with "+"
    only as the "+++" file header. *)
Definition preamble_line (line : string) : bool :=
  lf_free line && negb (Py.startswith "@@" line)
  && (negb (Py.startswith "+" line) || Py.startswith "+++" line).

(** The counts of a header agree with the body: the old range counts
    the context and deleted lines, the new range the context and added
    lines. *)
Definition hunk_ok (k : hunk) : bool :=
  lf_free (heading k)
  && forallb (fun l => lf_free l && bool_decide (is_Some (marker l))) (hunk_body k)
  && (N.of_nat (length (filter (fun l => has_marker [" "; "-"]%char l = true) (hunk_body k)))
      =? count_of (old_range k))%N
  && (N.of_nat (length (filter (fun l => has_marker [" "; "+"]%char l = true) (hunk_body k)))
      =? count_of (new_range k))%N.

(** Hunks come in the order of the new file and do not overlap. *)
Fixpoint hunks_ok (low : N) (ks : list hunk) : bool :=
  match ks with
  | [] => true
  | k :: ks' =>
      (low <=? range_start (new_range k))%N && hunk_ok k
      && hunks_ok (range_start (new_range k) + count_of (new_range k)) ks'
  end.

(** A well-formed unified diff of one file.  The content of a line is
    any text without a newline: a carriage return may stand anywhere in
    it. *)
Definition well_formed (d : file_diff) : bool :=
  forallb preamble_line (preamble d) && hunks_ok 0 (hunks d).

(** No line of the diff holds a bare carriage return. *)
Definition no_bare_cr (d : file_diff) : bool := forallb crlf_only (diff_lines d).

(** The diff with the carriage return of every CRLF line end taken
    off. *)
Definition chomp_hunk (k : hunk) : hunk :=
  {| old_range := old_range k; new_range := new_range k;
     heading := chomp (heading k); hunk_body := map chomp (hunk_body k) |}.

Definition chomp_diff (d : file_diff) : file_diff :=
  {| preamble := map chomp (preamble d); hunks := map chomp_hunk (hunks d) |}.

(** [n, n+1, ...] put next to the items of a list. *)
Fixpoint number_from (n : Z) (lines : list string) : list (Z * string) :=
  match lines with
  | [] => []
  | l :: ls => (n, l) :: number_from (n + 1) ls
  end.

(** What [check_file] has to number in a hunk: its added lines, counted
    from the start of the new range, each without the carriage return of
    a CRLF line end. *)
Definition hunk_records (k : hunk) : list (Z * string) :=
  number_from (Z.of_N (range_start (new_range k)))
              (map chomp (filter (fun l => Chartest.is_added l = true) (hunk_body k))).

(** The words between the opening and the closing "@@" of a header
    line. *)
Definition header_words (line : string) : list string :=
  match Py.split "@@" line with
  | _ :: inner :: _ => filter (fun w => w <> EmptyString) (Py.split " " inner)
  | _ => []
  end.

(** The second range specifier of a header line: the word that starts
    with "+", without the "+". *)
Definition new_range_text (line : string) : option string :=
  match filter (fun w => Py.startswith "+" w = true) (header_words line) with
  | String _ w :: _ => Some w
  | _ => None
  end.




End UnifiedDiff.

Module Protocol.
Import Task.

(** The task holds the stored version of its document, as it does right
    after [Task.__init__]. *)
Definition loaded (st : state) : Prop :=
  docs (database st) !! doc_id (self_document st) = Some (self_document st).

(** The document [start] leaves in the store and in [self.document]. *)
Definition started_document (h : host) (st : state) : document :=
  set_rev (doc_rev (self_document st) + 1)
          (set_started (time_time h (shell st)) (getfqdn h) (self_document st)).

End Protocol.

(** ** Sample inputs *)

Module Samples.
Import Task Chartest UnifiedDiff.

Definition tab : string := String Py.TAB EmptyString.

(** [@@ -18,0 +19,2 @@ int f(a + b)] with two added lines. *)
Definition hunk_a : hunk :=
  {| old_range := {| range_start := 18; range_count := Some 0%N |};
     new_range := {| range_start := 19; range_count := Some 2%N |};
     heading := " int f(a + b)";
     hunk_body := ["+foo()" +:+ tab; "+bar  "] |}.

(** [@@ -30 +33 @@]: one line replaced, the new one without a final
    newline. *)
Definition hunk_b : hunk :=
  {| old_range := {| range_start := 30; range_count := None |};
     new_range := {| range_start := 33; range_count := None |};
     heading := "";
     hunk_body := ["-old"; "+new"; "\ No newline at end of file"] |}.

Definition diff_x : file_diff :=
  {| preamble := ["diff --git a/x.c b/x.c"; "--- a/x.c"; "+++ b/x.c"];
     hunks := [hunk_a; hunk_b] |}.


(** The message for [count] copies of a tab on a line. *)
Definition tab_message (count line_number : Z) (line : string) : string :=
  (Py.str_of_Z count +:+ " copies of char " +:+ "0x9" +:+ " on line "
   +:+ Py.str_of_Z line_number +:+ " : ' " +:+ line +:+ " '") +:+ " => new TABs".

(** A machine on which every command succeeds.  [git diff --name-only]
    lists [x.c]; the diff of [x.c] adds one clean line. *)
Definition clean_diff : string :=
  Py.join nl ["diff --git a/x.c b/x.c"; "--- a/x.c"; "+++ b/x.c";
              "@@ -3,0 +4 @@"; "+  return 0;"; ""].

Definition host_ok : host :=
  {| abspath_of := fun p => p;
     path_exists := fun _ _ => false;
     path_isfile := fun _ _ => true;
     run_call := fun _ _ => Ok 0;
     run_check_output := fun _ cmd =>
       if Py.contains "--name-only" cmd then Ok ("x.c" +:+ nl) else Ok clean_diff;
     run_write := fun _ _ _ => Ok tt;
     time_time := fun tr => 1000 + Z.of_nat (length tr);
     getfqdn := "worker.example.org" |}.

(** The same machine, but [git clone] exits with code 2. *)
Definition host_clone_fails : host :=
  {| abspath_of := fun p => p;
     path_exists := fun _ _ => false;
     path_isfile := fun _ _ => true;
     run_call := fun _ cmd => if Py.startswith "git clone" cmd then Ok 2 else Ok 0;
     run_check_output := fun _ _ => Ok "";
     run_write := fun _ _ _ => Ok tt;
     time_time := fun tr => 1000 + Z.of_nat (length tr);
     getfqdn := "worker.example.org" |}.

Definition job (kwargs : gmap string value) : document :=
  {| doc_id := "job-1"; doc_rev := 1; doc_kwargs := Some kwargs;
     doc_started := None; doc_node := None; doc_results := None;
     doc_completed := None |}.

Definition kwargs_full : gmap string value :=
  {[ "sha" := VStr "abc123"; "git_url" := VStr "git://fork/repo.git";
     "base_repo_url" := VStr "git://base/repo.git";
     "base_repo_ref" := VStr "master" ]}.

Definition kwargs_no_sha : gmap string value :=
  {[ "git_url" := VStr "git://fork/repo.git";
     "base_repo_url" := VStr "git://base/repo.git";
     "base_repo_ref" := VStr "master" ]}.

Definition kwargs_no_base : gmap string value :=
  {[ "sha" := VStr "abc123"; "git_url" := VStr "git://fork/repo.git" ]}.

(** A task just built by [Task.__init__] for [job kwargs_full]. *)
Definition fresh_task : state :=
  {| self_document := job kwargs_full;
     self_work_dir := "/tmp/tmpXYZ";
     database := {| docs := {[ "job-1" := job kwargs_full ]}; blobs := ∅ |};
     shell := [] |}.

End Samples.

(** ** The rest of [cog/task.py] *)

Module Build.
Import Task.
Local Open Scope py_scope.

Section WithHost.
Context (h : host).

(** [git_merge(url, ref, work_dir=None)] *)
Definition git_merge (url ref work_dir : value) : M trace Z :=
  cmd <- lift_outcome (space_join [VStr "git remote add fork"; url]) ;;
  system h cmd work_dir ;;
  cmd <- lift_outcome (space_join [VStr "git pull fork"; ref; VStr "&> /dev/null"]) ;;
  system h cmd work_dir.

(** [scons_build(work_dir, options=None, configure=True,
    configure_options=None)]; [read_file] is what [open(path, 'r').read()]
    gives.  The result is the pair [(ret, log_text)]. *)
Definition scons_build (read_file : trace -> string -> outcome string)
    (work_dir : string) (options : option (list string)) (configure : bool)
    (configure_options : option (list string))
  : M trace (option Z * option string) :=
  let options := default ["-j2"] options in
  let configure_options := default [] configure_options in
  (if configure
   then system h ("./configure " +:+ Py.join " " configure_options) (VStr work_dir) ;;
        ret tt
   else ret tt) ;;
  env_file <- lift_outcome (os_path_join work_dir (VStr "env.sh")) ;;
  fun tr =>
    if negb (path_exists h tr env_file) then ret (None, None) tr
    else
      (code <- system h ("source " +:+ env_file +:+ " && scons "
                         +:+ Py.join " " options +:+ " &> build_log.txt")
                      (VStr work_dir) ;;
       log_text <- (fun tr' => (read_file tr' (work_dir +:+ "/build_log.txt"), tr')) ;;
       ret (Some code, Some log_text)) tr.

End WithHost.

End Build.

(** ** [cog/tasks/doxytest.py] *)

Module Doxytest.
Import Task.
Local Open Scope py_scope.

(** [s.count(sub)] for a non-empty [sub]: the non-overlapping
    occurrences, found left to right. *)
Fixpoint count_from (sub s : string) (skip : nat) : Z :=
  match s with
  | EmptyString => 0
  | String _ s' =>
      match skip with
      | S k => count_from sub s' k
      | O =>
          if Py.startswith sub s
          then 1 + count_from sub s' (String.length sub - 1)
          else count_from sub s' 0
      end
  end.

Definition count (sub s : string) : Z := count_from sub s 0.

(** Sub directories that must be Doxygenated (for help output) *)
Definition doxy_dirs : list string := ["src/du"; "src/ds"].

Definition nl : string := String Py.LF EmptyString.
Definition dq : string := String Py.DQUOTE EmptyString.

(** The page [DoxyCheck.print_HTML] builds. *)
Definition html_page (log_string : string) : string :=
  let n_warnings := count "warning:" log_string in
  let test_passed := n_warnings =? 0 in
  let web_page :=
    Py.join nl
      [ "";
        "        <html>   ";
        "        <head>";
        "        <title> Doxygen Warning Checker </title>";
        "        </head>";
        "        <body>";
        "        <h1> Doxygen Warning Checker </h1>";
        "        <h2 style=" +:+ dq +:+ "color: "
          +:+ (if test_passed then "green" else "red") +:+ dq +:+ "> Test "
          +:+ (if test_passed then "PASSED"
               else "FAILED with " +:+ Py.str_of_Z n_warnings +:+ " warnings")
          +:+ " </h2>";
        "        " ] in
  if negb test_passed then
    ((web_page
      +:+ ("<p>Headers in " +:+ Py.join ", " doxy_dirs
           +:+ " need Doxygen tags -- docDB-1018</p>"))
     +:+ Py.join nl
           [ "";
             "            <h2> Doxygen Log:</h2>";
             "            <p> " +:+ log_string +:+ " </p>";
             "            " ])
    +:+ Py.join nl
          [ "";
            "            </body>";
            "            </html>";
            "            " ]
  else web_page.

Definition CalledProcessError (msg : string) : exn :=
  mk_exn "CalledProcessError" true msg.

Section WithHost.
Context (h : host).

(** [DoxyCheck.print_HTML(log_string, out_file)] *)
Definition print_HTML (log_string out_file : string) : M trace string :=
  let web_page := html_page log_string in
  write_file h out_file web_page ;;
  ret web_page.

(** [DoxyCheck.get_doxy_log(rat_dir)]: [None] when the command fails
    with [subprocess.CalledProcessError]; any other exception goes on. *)
Definition get_doxy_log (rat_dir : value) : M trace (option string) :=
  doxyfile <- lift_outcome (os_path_join "dox" (VStr "doxyfile-in")) ;;
  let cmd := "cd " +:+ str rat_dir +:+ " && doxygen " +:+ doxyfile in
  fun tr =>
    match system_output h cmd VNone tr with
    | (Ok doxy_log, tr') => (Ok (Some doxy_log), tr')
    | (Raise e, tr') =>
        if String.eqb (exc_class e) "CalledProcessError" then (Ok None, tr')
        else (Raise e, tr')
    end.

(** [DoxyCheck.run] after the clone.  [os] has no attribute [join], so
    the first branch of the conditional expression raises. *)
Definition log_and_report (sha : value) (work_dir : string) : M trace results :=
  rat_dir <- (if negb (String.eqb work_dir "")
              then raise (AttributeError "'module' object has no attribute 'join'")
              else ret sha) ;;
  doxy_log <- get_doxy_log rat_dir ;;
  match doxy_log with
  | None => ret (Chartest.failure "could not get doxy log" None)
  | Some doxy_log =>
      web_page <- print_HTML doxy_log "doxy_check.html" ;;
      let attachment :=
        {| filename := "doxycheck.html"; contents := web_page;
           link_name := Some "doxycheck" |} in
      let success := count "warning:" doxy_log =? 0 in
      ret {| success := success; reason := None; code := None; errors := None;
             attachments := Some [attachment]; attach_links := None |}
  end.

(** [DoxyCheck.run(document, work_dir)].  Its three input checks and
    its test of the clone's code are, word for word, those of
    [CharCheck.run]. *)
Definition run : body :=
  fun document work_dir =>
    let kwargs := default ∅ (doc_kwargs document) in
    let sha := default VNone (kwargs !! "sha") in
    let git_url := default VNone (kwargs !! "git_url") in
    let base_repo_ref := default VNone (kwargs !! "base_repo_ref") in
    let base_repo_url := default VNone (kwargs !! "base_repo_url") in
    match Chartest.validate sha git_url base_repo_ref base_repo_url with
    | Some r => ret r
    | None =>
        code <- git_clone h git_url sha sha work_dir ;;
        if Chartest.unusable code
        then ret (Chartest.failure "git clone failed" (Some (Chartest.str_code code)))
        else log_and_report sha work_dir
    end.

End WithHost.

End Doxytest.

(** ** What [finish] leaves in the store *)

Module Stored.
Import Task.

(** The results as [finish] stores them: without the 'attachments' key,
    with the links added. *)
Definition stored_form (r : results) : results :=
  match attachments r with
  | Some atts => strip_attachments r atts
  | None => r
  end.

(** The attachments of document [id] after the uploads of [atts], in
    order. *)
Definition attach_all (id : string) (atts : list attachment)
    (blobs : gmap (string * string) string) : gmap (string * string) string :=
  fold_left (fun b a => <[(id, filename a) := contents a]> b) atts blobs.

End Stored.

(** ** More sample inputs *)

Module MoreSamples.
Import Task Chartest Samples.

(** A machine on which the clone target is already there. *)
Definition host_target_exists : host :=
  {| abspath_of := fun p => p;
     path_exists := fun _ _ => true;
     path_isfile := fun _ _ => true;
     run_call := fun _ _ => Ok 0;
     run_check_output := fun _ _ => Ok "";
     run_write := fun _ _ _ => Ok tt;
     time_time := fun tr => 1000 + Z.of_nat (length tr);
     getfqdn := "worker.example.org" |}.

(** A machine on which [git fetch] exits with code 128 and [git remote
    add] with code 3. *)
Definition host_fetch_fails : host :=
  {| abspath_of := fun p => p;
     path_exists := fun _ _ => false;
     path_isfile := fun _ _ => false;
     run_call := fun _ cmd =>
       if Py.contains "git fetch" cmd then Ok 128
       else if Py.contains "git remote add" cmd then Ok 3
       else Ok 0;
     run_check_output := fun _ _ => Ok "";
     run_write := fun _ _ _ => Ok tt;
     time_time := fun tr => 1000 + Z.of_nat (length tr);
     getfqdn := "worker.example.org" |}.

(** A machine whose [git diff --name-only] lists a code file and a text
    file; the diff of the code file is [clean_diff]. *)
Definition host_two_files : host :=
  {| abspath_of := fun p => p;
     path_exists := fun _ _ => false;
     path_isfile := fun _ _ => true;
     run_call := fun _ _ => Ok 0;
     run_check_output := fun _ cmd =>
       if Py.contains "--name-only" cmd
       then Ok ("x.c" +:+ nl +:+ "README.md" +:+ nl) else Ok clean_diff;
     run_write := fun _ _ _ => Ok tt;
     time_time := fun tr => 1000 + Z.of_nat (length tr);
     getfqdn := "worker.example.org" |}.

(** A machine whose doxygen run prints one warning. *)
Definition host_doxygen_warns : host :=
  {| abspath_of := fun p => p;
     path_exists := fun _ _ => false;
     path_isfile := fun _ _ => true;
     run_call := fun _ _ => Ok 0;
     run_check_output := fun _ _ => Ok "a.hh:3: warning: no docs";
     run_write := fun _ _ _ => Ok tt;
     time_time := fun tr => 1000 + Z.of_nat (length tr);
     getfqdn := "worker.example.org" |}.

(** A body that exits the interpreter. *)
Definition exiting_body : body :=
  fun _ _ => raise (mk_exn "SystemExit" false "1").

(** A body that returns a result with two attachments, one of them with
    a link name. *)
Definition two_attachments : list attachment :=
  [ {| filename := "report.html"; contents := "<html/>"; link_name := Some "Report" |};
    {| filename := "raw.log"; contents := "log"; link_name := None |} ].

Definition attaching_result : results :=
  {| success := true; reason := None; code := None; errors := None;
     attachments := Some two_attachments; attach_links := None |}.

Definition attaching_body : body := fun _ _ => ret attaching_result.

(** A machine whose doxygen run exits with an error. *)
Definition host_doxygen_fails : host :=
  {| abspath_of := fun p => p;
     path_exists := fun _ _ => false;
     path_isfile := fun _ _ => true;
     run_call := fun _ _ => Ok 0;
     run_check_output := fun _ _ =>
       Raise (Doxytest.CalledProcessError
                "Command returned non-zero exit status 1");
     run_write := fun _ _ _ => Ok tt;
     time_time := fun tr => 1000 + Z.of_nat (length tr);
     getfqdn := "worker.example.org" |}.

(** A machine on which [git clone] exits with code 128. *)
Definition host_clone_refused : host :=
  {| abspath_of := fun p => p;
     path_exists := fun _ _ => false;
     path_isfile := fun _ _ => true;
     run_call := fun _ cmd => if Py.startswith "git clone" cmd then Ok 128 else Ok 0;
     run_check_output := fun _ _ => Ok "";
     run_write := fun _ _ _ => Ok tt;
     time_time := fun tr => 1000 + Z.of_nat (length tr);
     getfqdn := "worker.example.org" |}.

(** A machine whose [git diff --name-only] lists two files, neither of
    them a code file. *)
Definition host_docs_only : host :=
  {| abspath_of := fun p => p;
     path_exists := fun _ _ => false;
     path_isfile := fun _ _ => true;
     run_call := fun _ _ => Ok 0;
     run_check_output := fun _ cmd =>
       if Py.contains "--name-only" cmd
       then Ok ("README.md" +:+ nl +:+ "doc/notes.txt" +:+ nl) else Ok clean_diff;
     run_write := fun _ _ _ => Ok tt;
     time_time := fun tr => 1000 + Z.of_nat (length tr);
     getfqdn := "worker.example.org" |}.

(** The diff of a file with CRLF line ends:
    [@@ -2,0 +3,2 @@] with two added lines, the first with a tab. *)
Definition cr : string := String Py.CR EmptyString.

Definition diff_crlf : UnifiedDiff.file_diff :=
  {| UnifiedDiff.preamble :=
       ["diff --git a/w.c b/w.c"; "--- a/w.c"; "+++ b/w.c"];
     UnifiedDiff.hunks :=
       [ {| UnifiedDiff.old_range :=
              {| UnifiedDiff.range_start := 2; UnifiedDiff.range_count := Some 0%N |};
            UnifiedDiff.new_range :=
              {| UnifiedDiff.range_start := 3; UnifiedDiff.range_count := Some 2%N |};
            UnifiedDiff.heading := "";
            UnifiedDiff.hunk_body := ["+a" +:+ tab +:+ cr; "+b" +:+ cr] |} ] |}.

(** The diff [git diff -U0] prints when the new first line of a file
    holds bare carriage returns, each followed by a "+", and a fourth
    line is added further down: [@@ -0,0 +1 @@] and [@@ -2,0 +4 @@]. *)
Definition diff_bare_cr : UnifiedDiff.file_diff :=
  {| UnifiedDiff.preamble :=
       ["diff --git a/m.c b/m.c"; "--- a/m.c"; "+++ b/m.c"];
     UnifiedDiff.hunks :=
       [ {| UnifiedDiff.old_range :=
              {| UnifiedDiff.range_start := 0; UnifiedDiff.range_count := Some 0%N |};
            UnifiedDiff.new_range :=
              {| UnifiedDiff.range_start := 1; UnifiedDiff.range_count := None |};
            UnifiedDiff.heading := "";
            UnifiedDiff.hunk_body :=
              ["+a" +:+ cr +:+ "+b" +:+ cr +:+ "+c" +:+ cr +:+ "+d"] |};
         {| UnifiedDiff.old_range :=
              {| UnifiedDiff.range_start := 2; UnifiedDiff.range_count := Some 0%N |};
            UnifiedDiff.new_range :=
              {| UnifiedDiff.range_start := 4; UnifiedDiff.range_count := None |};
            UnifiedDiff.heading := "";
            UnifiedDiff.hunk_body := ["+x"] |} ] |}.


Definition kwargs_no_url : gmap string value :=
  {[ "sha" := VStr "abc123" ]}.

Definition kwargs_half_base : gmap string value :=
  {[ "sha" := VStr "abc123"; "git_url" := VStr "git://fork/repo.git";
     "base_repo_url" := VStr "git://base/repo.git" ]}.

End MoreSamples.

(** * Facts about the string primitives *)

Section StringFacts.
Import Py UnifiedDiff.

Lemma append_cons c (s t : string) : String c s +:+ t = String c (s +:+ t).
Proof. reflexivity. Qed.

Lemma append_nil_l (s : string) : "" +:+ s = s.
Proof. reflexivity. Qed.

Lemma append_nil_r (s : string) : s +:+ "" = s.
Proof.
  induction s as [|c s IH]; [reflexivity |]. by rewrite append_cons, IH.
Qed.

Lemma append_assoc (s t u : string) : (s +:+ t) +:+ u = s +:+ (t +:+ u).
Proof.
  induction s as [|c s IH]; [reflexivity |]. by rewrite !append_cons, IH.
Qed.

Lemma append_length (s t : string) :
  String.length (s +:+ t) = (String.length s + String.length t)%nat.
Proof.
  induction s as [|c s IH]; [reflexivity |]. rewrite append_cons. simpl. by rewrite IH.
Qed.

Lemma all_chars_app P (s t : string) :
  all_chars P (s +:+ t) = all_chars P s && all_chars P t.
Proof.
  induction s as [|c s IH]; [reflexivity |].
  rewrite append_cons. simpl. rewrite IH. by destruct (P c).
Qed.

Lemma all_chars_impl (P Q : ascii -> bool) (s : string) :
  (forall c, P c = true -> Q c = true) ->
  all_chars P s = true -> all_chars Q s = true.
Proof.
  intros HPQ. induction s as [|c s IH]; simpl; [done |].
  intros [Hc Hs]%andb_prop. rewrite (HPQ c Hc). simpl. auto.
Qed.

Lemma startswith_app (p s : string) : startswith p (p +:+ s) = true.
Proof.
  induction p as [|a p IH]; [reflexivity |].
  rewrite append_cons. simpl. by rewrite Ascii.eqb_refl, IH.
Qed.

Lemma startswith_other c0 p c s :
  other_than c0 c = true -> startswith (String c0 p) (String c s) = false.
Proof.
  unfold other_than. intros H. simpl.
  rewrite Ascii.eqb_sym. by destruct (Ascii.eqb c c0).
Qed.

Lemma split_from_nonempty sep s k : split_from sep s k <> [].
Proof.
  revert k. induction s as [|c s IH]; intros k; simpl; [done |].
  destruct k; [| apply IH].
  destruct (startswith sep (String c s)); [done |].
  specialize (IH 0%nat). destruct (split_from sep s 0); done.
Qed.

Lemma split_from_skip sep (t post : string) :
  split_from sep (t +:+ post) (String.length t) = split_from sep post 0.
Proof.
  induction t as [|c t IH]; [by destruct post |].
  rewrite append_cons. simpl. apply IH.
Qed.

(** Up to the first occurrence of the separator, [split] copies. *)
Lemma split_cut c0 sep' (pre post : string) :
  all_chars (other_than c0) pre = true ->
  split (String c0 sep') (pre +:+ String c0 sep' +:+ post)
  = pre :: split (String c0 sep') post.
Proof.
  unfold split. induction pre as [|a pre IH]; intros Hpre.
  - change ("" +:+ String c0 sep' +:+ post) with (String c0 (sep' +:+ post)).
    cbn [split_from].
    change (String c0 (sep' +:+ post)) with (String c0 sep' +:+ post).
    rewrite startswith_app. f_equal.
    replace (String.length (String c0 sep') - 1)%nat with (String.length sep')
      by (simpl; lia).
    apply split_from_skip.
  - simpl in Hpre. apply andb_prop in Hpre as [Ha Hpre].
    change (String a pre +:+ String c0 sep' +:+ post)
      with (String a (pre +:+ String c0 sep' +:+ post)).
    cbn [split_from]. rewrite (startswith_other _ _ _ _ Ha).
    rewrite (IH Hpre). reflexivity.
Qed.

Lemma split_no_sep c0 sep' (s : string) :
  all_chars (other_than c0) s = true -> split (String c0 sep') s = [s].
Proof.
  unfold split. induction s as [|a s IH]; intros Hs; [reflexivity |].
  simpl in Hs. apply andb_prop in Hs as [Ha Hs].
  cbn [split_from]. rewrite (startswith_other _ _ _ _ Ha), (IH Hs). reflexivity.
Qed.

(** The first piece starts with whatever comes before the first
    character that could open a separator. *)
Lemma split_hd_prefix c0 sep' (pre s : string) :
  all_chars (other_than c0) pre = true ->
  exists s1, hd "" (split (String c0 sep') (pre +:+ s)) = pre +:+ s1.
Proof.
  unfold split. induction pre as [|a pre IH]; intros Hpre.
  - eexists. reflexivity.
  - simpl in Hpre. apply andb_prop in Hpre as [Ha Hpre].
    destruct (IH Hpre) as [s1 Hs1]. exists s1.
    change (String a pre +:+ s) with (String a (pre +:+ s)).
    cbn [split_from]. rewrite (startswith_other _ _ _ _ Ha).
    destruct (split_from (String c0 sep') (pre +:+ s) 0) as [|p ps] eqn:E.
    + by apply split_from_nonempty in E.
    + simpl in *. by rewrite Hs1.
Qed.

Lemma contains_unfold (needle hay : string) :
  contains needle hay
  = startswith needle hay
    || match hay with
       | EmptyString => false
       | String _ hay' => contains needle hay'
       end.
Proof. by destruct hay. Qed.

Lemma contains_cut (sep pre post : string) :
  contains sep (pre +:+ sep +:+ post) = true.
Proof.
  induction pre as [|a pre IH].
  - rewrite append_nil_l, contains_unfold, startswith_app. reflexivity.
  - change (String a pre +:+ sep +:+ post) with (String a (pre +:+ sep +:+ post)).
    cbn [contains]. rewrite IH. apply orb_true_r.
Qed.

Lemma contains_char_none c0 (s : string) :
  all_chars (other_than c0) s = true -> contains (String c0 "") s = false.
Proof.
  induction s as [|a s IH]; intros Hs; [reflexivity |].
  simpl in Hs. apply andb_prop in Hs as [Ha Hs].
  cbn [contains]. rewrite (startswith_other _ _ _ _ Ha), (IH Hs). reflexivity.
Qed.

End StringFacts.


Section DigitFacts.
Import Py UnifiedDiff.

Lemma ord_chr (n : N) : (n < 256)%N -> ord (chr n) = n.
Proof. apply N_ascii_embedding. Qed.

Lemma digit_char_val (d : N) : (d < 10)%N -> digit_val (digit_char d) = Some d.
Proof.
  intros Hd. unfold digit_val, digit_char. rewrite ord_chr by lia.
  replace (48 <=? 48 + d)%N with true by (symmetry; apply N.leb_le; lia).
  replace (48 + d <=? 57)%N with true by (symmetry; apply N.leb_le; lia).
  simpl. f_equal. lia.
Qed.

Lemma digit_char_is_digit (d : N) : (d < 10)%N -> is_digit (digit_char d) = true.
Proof. intros Hd. unfold is_digit. by rewrite digit_char_val. Qed.

Lemma is_digit_ord (c : ascii) :
  is_digit c = true -> (48 <= ord c <= 57)%N.
Proof.
  unfold is_digit, digit_val.
  destruct (48 <=? ord c)%N eqn:E1; [| done].
  destruct (ord c <=? 57)%N eqn:E2; [| done].
  intros _. apply N.leb_le in E1, E2. lia.
Qed.

(** A digit is none of the characters outside ["0".."9"]. *)
Lemma is_digit_other (c c0 : ascii) :
  is_digit c = true -> (ord c0 < 48 \/ 57 < ord c0)%N -> other_than c0 c = true.
Proof.
  intros Hc Hc0. apply is_digit_ord in Hc. unfold other_than.
  destruct (Ascii.eqb_spec c c0) as [-> |]; [lia | done].
Qed.

Lemma is_digit_nospace (c : ascii) : is_digit c = true -> isspace c = false.
Proof.
  intros Hc. apply is_digit_ord in Hc. unfold isspace.
  destruct (N.eqb_spec (ord c) 32); [lia |].
  destruct (N.leb_spec 9 (ord c)); destruct (N.leb_spec (ord c) 13); simpl; try done; lia.
Qed.

Lemma mod10_lt (n : N) : (n mod 10 < 10)%N.
Proof. apply N.mod_lt. done. Qed.

Lemma dec_digits_all (fuel : nat) (n : N) (acc : string) :
  all_chars is_digit acc = true -> all_chars is_digit (dec_digits fuel n acc) = true.
Proof.
  revert n acc. induction fuel as [|f IH]; intros n acc Hacc; simpl; [done |].
  assert (all_chars is_digit (String (digit_char (n mod 10)) acc) = true) as H'.
  { simpl. rewrite digit_char_is_digit by apply mod10_lt. done. }
  destruct (n <? 10)%N; [done | by apply IH].
Qed.

Lemma dec_digits_head (fuel : nat) (n : N) (acc : string) :
  exists c s, dec_digits (S fuel) n acc = String c s /\ is_digit c = true.
Proof.
  revert n acc. induction fuel as [|f IH]; intros n acc.
  - simpl. exists (digit_char (n mod 10)), acc.
    split; [by destruct (n <? 10)%N | apply digit_char_is_digit, mod10_lt].
  - change (dec_digits (S (S f)) n acc)
      with (if (n <? 10)%N then String (digit_char (n mod 10)) acc
            else dec_digits (S f) (n / 10) (String (digit_char (n mod 10)) acc)).
    destruct (n <? 10)%N; [| apply IH].
    eexists _, _. split; [reflexivity | apply digit_char_is_digit, mod10_lt].
Qed.

Lemma parse_dec_digits (fuel : nat) (n : N) (acc : string) :
  (n < 10 ^ N.of_nat fuel)%N ->
  parse_digits (dec_digits fuel n acc) 0 = parse_digits acc n.
Proof.
  revert n acc. induction fuel as [|f IH]; intros n acc Hn.
  - simpl in *. replace n with 0%N by lia. reflexivity.
  - cbn [dec_digits]. destruct (N.ltb_spec n 10) as [Hlt | Hge].
    + cbn [parse_digits]. rewrite digit_char_val by apply mod10_lt.
      rewrite N.mod_small by done. f_equal.
    + rewrite IH.
      * cbn [parse_digits]. rewrite digit_char_val by apply mod10_lt.
        f_equal. pose proof (N.div_mod n 10). lia.
      * rewrite Nat2N.inj_succ, N.pow_succ_r' in Hn.
        apply N.Div0.div_lt_upper_bound. lia.
Qed.

Lemma enough_fuel (n : N) : (n < 10 ^ N.of_nat (S (N.to_nat (N.log2 n))))%N.
Proof.
  rewrite Nat2N.inj_succ, N2Nat.id.
  destruct (N.eq_dec n 0%N) as [-> | Hn]; [done |].
  pose proof (N.log2_spec n ltac:(lia)) as [_ Hlt].
  eapply N.lt_le_trans; [exact Hlt |].
  apply N.pow_le_mono_l. lia.
Qed.

Lemma str_of_N_parse (n : N) : parse_digits (str_of_N n) 0 = Some n.
Proof. unfold str_of_N. rewrite parse_dec_digits by apply enough_fuel. reflexivity. Qed.

Lemma str_of_N_digits (n : N) : all_chars is_digit (str_of_N n) = true.
Proof. unfold str_of_N. by apply dec_digits_all. Qed.

Lemma str_of_N_head (n : N) :
  exists c s, str_of_N n = String c s /\ is_digit c = true.
Proof. unfold str_of_N. apply dec_digits_head. Qed.

Lemma str_of_N_other (n : N) (c0 : ascii) :
  (ord c0 < 48 \/ 57 < ord c0)%N -> all_chars (other_than c0) (str_of_N n) = true.
Proof.
  intros Hc0. eapply all_chars_impl; [| apply str_of_N_digits].
  intros c Hc. by apply is_digit_other.
Qed.

Lemma rstrip_no_space (s : string) : all_chars not_space s = true -> rstrip s = s.
Proof.
  unfold not_space. induction s as [|c s IH]; [done |].
  simpl. intros [Hc Hs]%andb_prop. rewrite (IH Hs).
  destruct s; [| done]. by destruct (isspace c).
Qed.

Lemma rstrip_space_end (s : string) :
  all_chars not_space s = true -> rstrip (s +:+ " ") = s.
Proof.
  unfold not_space. induction s as [|c s IH]; [done |].
  simpl. intros [Hc Hs]%andb_prop. rewrite ?append_cons. cbn [rstrip].
  rewrite (IH Hs). destruct s; [| done]. by destruct (isspace c).
Qed.

Lemma str_of_N_no_space (n : N) : all_chars not_space (str_of_N n) = true.
Proof.
  eapply all_chars_impl; [| apply str_of_N_digits].
  intros c Hc. unfold not_space. by rewrite is_digit_nospace.
Qed.

Lemma int_digits_string (c : ascii) (s : string) (n : N) :
  is_digit c = true -> parse_digits (String c s) 0 = Some n ->
  match String c s with
  | EmptyString => None
  | String c t =>
      if Ascii.eqb c "-" then n ← parse_unsigned t; Some (- Z.of_N n)
      else if Ascii.eqb c "+" then n ← parse_unsigned t; Some (Z.of_N n)
      else n ← parse_unsigned (String c t); Some (Z.of_N n)
  end = Some (Z.of_N n).
Proof.
  intros Hc Hp. cbv beta iota.
  assert (Ascii.eqb c "-" = false) as ->.
  { apply negb_true_iff, (is_digit_other c "-" Hc). vm_compute. by left. }
  assert (Ascii.eqb c "+" = false) as ->.
  { apply negb_true_iff, (is_digit_other c "+" Hc). vm_compute. by left. }
  unfold parse_unsigned. by rewrite Hp.
Qed.

(** [int] reads back what [str] printed, with or without a blank
    behind it. *)
Lemma int_str_of_N (n : N) :
  int (str_of_N n) = Some (Z.of_N n) /\ int (str_of_N n +:+ " ") = Some (Z.of_N n).
Proof.
  pose proof (str_of_N_parse n) as Hp.
  pose proof (str_of_N_no_space n) as Hs.
  destruct (str_of_N_head n) as (c & s & E & Hc). rewrite E in *.
  assert (isspace c = false) as Hsp by by apply is_digit_nospace.
  split; unfold int, strip.
  - cbn [lstrip]. rewrite Hsp, rstrip_no_space by done. by apply int_digits_string.
  - rewrite append_cons. cbn [lstrip]. rewrite Hsp, <- append_cons.
    rewrite rstrip_space_end by done. by apply int_digits_string.
Qed.

(** [int(str(z))] is [z]: [str] prints the decimal numeral of [z]. *)
Lemma int_str_of_Z (z : Z) : int (str_of_Z z) = Some z.
Proof.
  unfold str_of_Z. destruct (Z.ltb_spec z 0) as [Hneg | Hpos].
  - pose proof (str_of_N_parse (Z.abs_N z)) as Hp.
    pose proof (str_of_N_no_space (Z.abs_N z)) as Hs.
    destruct (str_of_N_head (Z.abs_N z)) as (c & s & E & Hc).
    unfold int, strip. cbn [lstrip].
    change (isspace "-") with false. cbn iota.
    rewrite rstrip_no_space by (cbn [all_chars]; by rewrite Hs).
    change (Ascii.eqb "-" "-") with true. cbn iota.
    rewrite E in *. unfold parse_unsigned. rewrite Hp. cbn.
    f_equal. rewrite N2Z.inj_abs_N. lia.
  - destruct (int_str_of_N (Z.abs_N z)) as [-> _]. f_equal.
    rewrite N2Z.inj_abs_N. lia.
Qed.

End DigitFacts.

Section HeaderFacts.
Import Py UnifiedDiff Chartest.

Lemma render_range_other (r : line_range) (c0 : ascii) :
  (ord c0 < 48 \/ 57 < ord c0)%N -> c0 <> ","%char ->
  all_chars (other_than c0) (render_range r) = true.
Proof.
  intros Hc0 Hcomma. unfold render_range.
  rewrite all_chars_app, str_of_N_other by done.
  destruct (range_count r) as [c|]; [| done].
  rewrite all_chars_app, str_of_N_other by done.
  simpl. unfold other_than. rewrite Ascii.eqb_sym.
  by destruct (Ascii.eqb_spec c0 ",").
Qed.

(** The text the loop takes for the start line: the new range and the
    blank behind it. *)
Lemma header_line_context (old new : line_range) (heading : string) :
  exists piece rest,
    split "+" (render_header old new heading)
    = ("@@ -" +:+ render_range old +:+ " ") :: piece :: rest
    /\ hd "" (split "@@" piece) = render_range new +:+ " ".
Proof.
  unfold render_header.
  replace ("@@ -" +:+ render_range old +:+ " +" +:+ render_range new +:+ " @@" +:+ heading)
    with (("@@ -" +:+ render_range old +:+ " ") +:+ "+"
          +:+ ((render_range new +:+ " @@") +:+ heading))
    by (rewrite !append_assoc; reflexivity).
  rewrite split_cut.
  2:{ rewrite !all_chars_app, render_range_other; [done | vm_compute; by left | done]. }
  destruct (split_hd_prefix "+" "" (render_range new +:+ " @@") heading) as [s1 Hs1].
  { rewrite all_chars_app, render_range_other; [done | vm_compute; by left | done]. }
  destruct (split "+" ((render_range new +:+ " @@") +:+ heading)) as [|piece rest] eqn:E.
  { by apply split_from_nonempty in E. }
  simpl in Hs1. subst piece. exists ((render_range new +:+ " @@") +:+ s1), rest.
  split; [reflexivity |].
  replace ((render_range new +:+ " @@") +:+ s1)
    with ((render_range new +:+ " ") +:+ "@@" +:+ s1)
    by (rewrite !append_assoc; reflexivity).
  rewrite split_cut; [reflexivity |].
  rewrite all_chars_app, render_range_other; [done | vm_compute; by right | done].
Qed.

(** The [try] block finds the start of the new range of every header
    git prints, whatever the heading behind it. *)
Lemma hunk_start_render (old new : line_range) (heading : string) :
  hunk_start (render_header old new heading) = Some (Z.of_N (range_start new)).
Proof.
  destruct (header_line_context old new heading) as (piece & rest & Hsplit & Hctx).
  unfold hunk_start, start_text. rewrite Hsplit, Hctx. unfold render_range.
  destruct (range_count new) as [c|].
  - replace ((str_of_N (range_start new) +:+ "," +:+ str_of_N c) +:+ " ")
      with (str_of_N (range_start new) +:+ "," +:+ (str_of_N c +:+ " "))
      by (rewrite !append_assoc; reflexivity).
    rewrite contains_cut, split_cut by (apply str_of_N_other; vm_compute; by left).
    simpl. apply int_str_of_N.
  - rewrite append_nil_r, contains_char_none.
    + apply int_str_of_N.
    + rewrite all_chars_app, str_of_N_other; [done | vm_compute; by left].
Qed.

Lemma render_header_is_header (old new : line_range) (heading : string) :
  String.eqb (slice_to 2 (render_header old new heading)) "@@" = true.
Proof. reflexivity. Qed.

Lemma render_header_not_added (old new : line_range) (heading : string) :
  is_added (render_header old new heading) = false.
Proof. reflexivity. Qed.

Lemma reseed_render (n : Z) (old new : line_range) (heading : string) :
  reseed n (render_header old new heading) = Z.of_N (range_start new).
Proof.
  unfold reseed. by rewrite render_header_is_header, hunk_start_render.
Qed.

(** On a header of the unified format, [new_range_text] is the new
    range as it is written. *)
Lemma new_range_text_render (old new : line_range) (heading : string) :
  new_range_text (render_header old new heading) = Some (render_range new).
Proof.
  unfold new_range_text, header_words, render_header.
  replace ("@@ -" +:+ render_range old +:+ " +" +:+ render_range new +:+ " @@" +:+ heading)
    with ("" +:+ "@@"
          +:+ ((" -" +:+ render_range old +:+ " +" +:+ render_range new +:+ " ")
               +:+ "@@" +:+ heading))
    by (rewrite !append_assoc; reflexivity).
  rewrite split_cut by done.
  assert (forall r, all_chars (other_than "@") (render_range r) = true) as Hat.
  { intros r. apply render_range_other; [vm_compute; by right | done]. }
  assert (forall r, all_chars (other_than " ") (render_range r) = true) as Hsp.
  { intros r. apply render_range_other; [vm_compute; by left | done]. }
  rewrite split_cut by (by rewrite !all_chars_app, !Hat).
  replace (" -" +:+ render_range old +:+ " +" +:+ render_range new +:+ " ")
    with ("" +:+ " " +:+ (("-" +:+ render_range old) +:+ " "
                          +:+ (("+" +:+ render_range new) +:+ " " +:+ "")))
    by (rewrite !append_assoc; reflexivity).
  rewrite split_cut by done.
  rewrite split_cut by (by rewrite !all_chars_app, !Hsp).
  rewrite split_cut by (by rewrite !all_chars_app, !Hsp).
  change (split " " "") with [""].
  change ("-" +:+ render_range old) with (String "-" (render_range old)).
  change ("+" +:+ render_range new) with (String "+" (render_range new)).
  rewrite (filter_cons_False (fun w : string => w <> "")) by (intros H; by apply H).
  rewrite (filter_cons_True (fun w : string => w <> "")) by done.
  rewrite (filter_cons_True (fun w : string => w <> "")) by done.
  rewrite (filter_cons_False (fun w : string => w <> "")) by (intros H; by apply H).
  rewrite filter_nil.
  rewrite filter_cons_False by done.
  rewrite filter_cons_True by done.
  reflexivity.
Qed.

End HeaderFacts.

Section LoopFacts.
Import Py UnifiedDiff Chartest.
#[local] Arguments Ascii.eqb : simpl never.

Lemma slice_startswith (p s : string) :
  String.eqb (slice_to (String.length p) s) p = startswith p s.
Proof.
  revert s. induction p as [|a p IH]; intros s; [by destruct s |].
  destruct s as [|b s]; [reflexivity |].
  simpl. rewrite IH, Ascii.eqb_sym. reflexivity.
Qed.

Lemma is_header_startswith (line : string) :
  String.eqb (slice_to 2 line) "@@" = startswith "@@" line.
Proof. apply (slice_startswith "@@"). Qed.

Lemma is_added_startswith (line : string) :
  is_added line = startswith "+" line && negb (startswith "+++" line).
Proof.
  unfold is_added.
  pose proof (slice_startswith "+" line) as H1.
  pose proof (slice_startswith "+++" line) as H3.
  change (String.length "+") with 1%nat in H1.
  change (String.length "+++") with 3%nat in H3.
  rewrite H1, H3. clear H1 H3.
  destruct line as [|c line]; [reflexivity |].
  replace (len (String c line) =? 0) with false.
  - simpl. by destruct (Ascii.eqb "+" c); destruct (startswith "++" line).
  - symmetry. apply Z.eqb_neq. unfold len. simpl. lia.
Qed.

Lemma header_not_added (line : string) :
  startswith "@@" line = true -> is_added line = false.
Proof.
  rewrite is_added_startswith. destruct line as [|c line]; [done |].
  simpl. destruct (Ascii.eqb_spec "@" c) as [<- |]; done.
Qed.

Lemma reseed_other (n : Z) (line : string) :
  startswith "@@" line = false -> reseed n line = n.
Proof. intros H. unfold reseed. by rewrite is_header_startswith, H. Qed.

Lemma check_line_skip (n : Z) (errs : list string) (line : string) :
  is_added line = false -> check_line (n, errs) line = (reseed n line, errs).
Proof. intros H. unfold check_line. by rewrite H. Qed.

Lemma check_line_added (n : Z) (errs : list string) (line : string) :
  is_added line = true ->
  check_line (n, errs) line = (n + 1, (errs ++ line_errors (n, line))%list).
Proof.
  intros H. unfold check_line. rewrite H. simpl.
  destruct (startswith "@@" line) eqn:E.
  - apply header_not_added in E. congruence.
  - by rewrite reseed_other.
Qed.

(** The messages of the loop are the messages of the added lines, each
    under the number the counter had for it. *)
Lemma check_lines_records (lines : list string) (n : Z) (errs : list string) :
  snd (fold_left check_line lines (n, errs))
  = (errs ++ flat_map line_errors (added_lines n lines))%list.
Proof.
  revert n errs. induction lines as [|line lines IH]; intros n errs.
  - simpl. by rewrite app_nil_r.
  - cbn [fold_left added_lines]. destruct (is_added line) eqn:E.
    + rewrite check_line_added by done.
      destruct (startswith "@@" line) eqn:E'.
      { apply header_not_added in E'. congruence. }
      rewrite reseed_other by done. rewrite IH. cbn [flat_map].
      by rewrite app_assoc.
    + rewrite check_line_skip by done. apply IH.
Qed.

Lemma check_file_records (diff : string) :
  check_file diff
  = ((if contains NO_EOF_MARKER diff then ["No EOF newline"] else [])
     ++ flat_map line_errors (added_records diff))%list.
Proof. unfold check_file, added_records. apply check_lines_records. Qed.

(** Lines with a body marker are no hunk headers. *)
Lemma marker_not_header (line : string) :
  is_Some (marker line) -> startswith "@@" line = false.
Proof.
  destruct line as [|c line]; [done |]. unfold marker.
  intros [m Hm]. simpl.
  destruct (Ascii.eqb_spec "@" c) as [<- |]; [| done].
  by vm_compute in Hm.
Qed.

Lemma added_lines_body (body rest : list string) (n : Z) :
  Forall (fun l => is_Some (marker l)) body ->
  added_lines n (body ++ rest)
  = (number_from n (filter (fun l => is_added l = true) body)
     ++ added_lines (n + Z.of_nat (length (filter (fun l => is_added l = true) body))) rest)%list.
Proof.
  intros Hbody. revert n. induction Hbody as [|l body Hl _ IH]; intros n.
  - simpl. by rewrite Z.add_0_r.
  - cbn [app added_lines]. rewrite reseed_other by by apply marker_not_header.
    rewrite filter_cons. destruct (is_added l) eqn:E.
    + rewrite decide_True by done. cbn [number_from app length]. rewrite IH.
      do 3 f_equal. lia.
    + rewrite decide_False by done. apply IH.
Qed.

Lemma added_lines_preamble (pre rest : list string) (n : Z) :
  forallb preamble_line pre = true ->
  added_lines n (pre ++ rest) = added_lines n rest.
Proof.
  induction pre as [|l pre IH]; [done |].
  cbn [forallb app added_lines]. intros [Hl Hpre]%andb_prop.
  unfold preamble_line in Hl.
  apply andb_prop in Hl as [[_ Hh]%andb_prop Hp].
  apply negb_true_iff in Hh. rewrite reseed_other by done.
  replace (is_added l) with false; [by apply IH |].
  rewrite is_added_startswith.
  destruct (startswith "+" l); destruct (startswith "+++" l); done.
Qed.

Lemma hunk_ok_body (k : hunk) :
  hunk_ok k = true -> Forall (fun l => is_Some (marker l)) (hunk_body k).
Proof.
  unfold hunk_ok. intros [[[_ Hb]%andb_prop _]%andb_prop _]%andb_prop.
  rewrite forallb_forall in Hb. apply Forall_forall. intros l Hl.
  apply list_elem_of_In in Hl.
  apply Hb in Hl. apply andb_prop in Hl as [_ Hl]. by apply bool_decide_eq_true in Hl.
Qed.

Lemma added_lines_hunks (ks : list hunk) (low : N) (n : Z) :
  hunks_ok low ks = true ->
  added_lines n (flat_map hunk_lines ks)
  = flat_map (fun k => number_from (Z.of_N (range_start (new_range k)))
                         (filter (fun l => is_added l = true) (hunk_body k))) ks.
Proof.
  revert low n. induction ks as [|k ks IH]; intros low n; [done |].
  cbn [hunks_ok flat_map]. intros [[_ Hk]%andb_prop Hks]%andb_prop.
  unfold hunk_lines at 1. cbn [app added_lines].
  rewrite render_header_not_added, reseed_render.
  rewrite added_lines_body by by apply hunk_ok_body.
  by rewrite (IH _ _ Hks).
Qed.

Lemma chomp_cons2 (c c' : ascii) (s : string) :
  chomp (String c (String c' s)) = String c (chomp (String c' s)).
Proof. reflexivity. Qed.

Lemma chomp_cons_keep (c : ascii) (s : string) :
  Ascii.eqb c CR = false -> chomp (String c s) = String c (chomp s).
Proof.
  intros Hc. destruct s as [|c' s]; [| reflexivity]. unfold chomp. by rewrite Hc.
Qed.

(** Only the end of a text matters to [chomp]. *)
Lemma chomp_app_last (s t : string) (c : ascii) :
  chomp (s +:+ String c t) = s +:+ chomp (String c t).
Proof.
  induction s as [|a s IH]; [reflexivity |].
  rewrite !append_cons, <- IH. by destruct s.
Qed.

(** Taking the carriage return of a CRLF end off a line changes no test
    for a prefix that holds no carriage return. *)
Lemma startswith_chomp (p s : string) :
  all_chars (other_than CR) p = true -> startswith p (chomp s) = startswith p s.
Proof.
  revert s. induction p as [|a p IH]; intros s Hp.
  { by destruct s; destruct (chomp _). }
  cbn [all_chars] in Hp. apply andb_prop in Hp as [Ha Hp].
  unfold other_than in Ha. apply negb_true_iff in Ha.
  destruct s as [|c [|c' s]]; [reflexivity | |].
  - unfold chomp. destruct (Ascii.eqb_spec c CR) as [-> | Hc]; [| reflexivity].
    cbn [startswith]. by rewrite Ha.
  - rewrite chomp_cons2. cbn [startswith]. by rewrite (IH _ Hp).
Qed.

Lemma is_added_chomp (l : string) : is_added (chomp l) = is_added l.
Proof. rewrite !is_added_startswith. by rewrite !startswith_chomp. Qed.

Lemma marker_chomp (l : string) : marker (chomp l) = marker l.
Proof.
  destruct l as [|c [|c' l]]; [reflexivity | | reflexivity].
  unfold chomp. by destruct (Ascii.eqb_spec c CR) as [-> |].
Qed.

Lemma has_marker_chomp (cs : list ascii) (l : string) :
  has_marker cs (chomp l) = has_marker cs l.
Proof. unfold has_marker. by rewrite marker_chomp. Qed.

Lemma all_chars_chomp (P : ascii -> bool) (s : string) :
  all_chars P s = true -> all_chars P (chomp s) = true.
Proof.
  induction s as [|c s IH]; [done |]. destruct s as [|c' s].
  - unfold chomp. by destruct (Ascii.eqb c CR).
  - rewrite chomp_cons2. intros H.
    change (P c && all_chars P (String c' s) = true) in H.
    apply andb_prop in H as [Hc Hs]. cbn [all_chars]. rewrite Hc. by apply IH.
Qed.

Lemma chomp_render_header (old new : line_range) (heading : string) :
  chomp (render_header old new heading) = render_header old new (chomp heading).
Proof.
  assert (forall h, render_header old new h
                    = ("@@ -" +:+ render_range old +:+ " +" +:+ render_range new +:+ " @")
                      +:+ String "@" h) as Hsplit.
  { intros h. unfold render_header. by rewrite !append_assoc. }
  rewrite !Hsplit, chomp_app_last. by rewrite chomp_cons_keep.
Qed.

Lemma hunk_lines_chomp (k : hunk) :
  hunk_lines (chomp_hunk k) = map chomp (hunk_lines k).
Proof.
  unfold hunk_lines, chomp_hunk. cbn [map heading hunk_body old_range new_range].
  by rewrite chomp_render_header.
Qed.

Lemma diff_lines_chomp (d : file_diff) :
  diff_lines (chomp_diff d) = map chomp (diff_lines d).
Proof.
  unfold diff_lines, chomp_diff. cbn [preamble hunks]. rewrite map_app. f_equal.
  induction (hunks d) as [|k ks IH]; [done |].
  cbn [map flat_map]. by rewrite map_app, hunk_lines_chomp, IH.
Qed.

Lemma preamble_line_chomp (l : string) :
  preamble_line l = true -> preamble_line (chomp l) = true.
Proof.
  unfold preamble_line, lf_free. rewrite !startswith_chomp by done.
  intros [[Hl ->]%andb_prop ->]%andb_prop. by rewrite all_chars_chomp.
Qed.

Lemma filter_chomp_length (P : string -> Prop) `{!forall l, Decision (P l)}
    (ls : list string) :
  (forall l, P (chomp l) <-> P l) ->
  length (filter P (map chomp ls)) = length (filter P ls).
Proof.
  intros HP. induction ls as [|l ls IH]; [done |].
  cbn [map]. rewrite !filter_cons. destruct (decide (P l)) as [Hl | Hl].
  - rewrite decide_True by by apply HP. simpl. by rewrite IH.
  - rewrite decide_False by by rewrite HP. done.
Qed.

Lemma hunk_ok_chomp (k : hunk) : hunk_ok k = true -> hunk_ok (chomp_hunk k) = true.
Proof.
  unfold hunk_ok, chomp_hunk. cbn [heading hunk_body old_range new_range].
  intros [[[Hh Hb]%andb_prop Ho]%andb_prop Hn]%andb_prop.
  rewrite !filter_chomp_length by (intros l; by rewrite has_marker_chomp).
  rewrite Ho, Hn, !andb_true_r. unfold lf_free in *.
  rewrite all_chars_chomp by done. rewrite andb_true_l.
  rewrite forallb_forall in *. intros l (l0 & <- & Hl0)%in_map_iff.
  apply Hb in Hl0. apply andb_prop in Hl0 as [H1 H2].
  by rewrite marker_chomp, all_chars_chomp.
Qed.

Lemma hunks_ok_chomp (ks : list hunk) (low : N) :
  hunks_ok low ks = true -> hunks_ok low (map chomp_hunk ks) = true.
Proof.
  revert low. induction ks as [|k ks IH]; intros low; [done |].
  cbn [map hunks_ok]. intros [[Hlow Hk]%andb_prop Hks]%andb_prop.
  change (new_range (chomp_hunk k)) with (new_range k).
  rewrite Hlow, hunk_ok_chomp by done. by apply IH.
Qed.

(** A well-formed diff stays one when the carriage returns of its CRLF
    ends are taken off. *)
Lemma well_formed_chomp (d : file_diff) :
  well_formed d = true -> well_formed (chomp_diff d) = true.
Proof.
  unfold well_formed, chomp_diff. cbn [preamble hunks].
  intros [Hpre Hks]%andb_prop. rewrite hunks_ok_chomp by done.
  rewrite andb_true_r. rewrite forallb_forall in *.
  intros l (l0 & <- & Hl0)%in_map_iff. by apply preamble_line_chomp, Hpre.
Qed.

(** [splitlines] gives back a line that was closed by a newline,
    without the carriage return of a CRLF end. *)
Lemma splitlines_crlf_line (line rest : string) :
  crlf_only line = true ->
  splitlines (line +:+ String LF rest) = chomp line :: splitlines rest.
Proof.
  unfold crlf_only, one_line. induction line as [|a line IH]; intros Hl; [reflexivity |].
  rewrite append_cons. destruct line as [|b line].
  - rewrite append_nil_l. unfold chomp in *. cbn [splitlines].
    destruct (Ascii.eqb_spec a CR) as [-> | Ha]; [reflexivity |].
    cbn [all_chars] in Hl. unfold other_than in Hl.
    destruct (Ascii.eqb a LF); [done |]. reflexivity.
  - rewrite chomp_cons2 in *. cbn [all_chars] in Hl.
    apply andb_prop in Hl as [Ha Hl]. apply andb_prop in Ha as [Hlf Hcr].
    unfold other_than in Hlf, Hcr. cbn [splitlines].
    destruct (Ascii.eqb a LF); [done |]. destruct (Ascii.eqb a CR); [done |].
    rewrite (IH Hl). reflexivity.
Qed.

Lemma splitlines_render (d : file_diff) :
  no_bare_cr d = true -> splitlines (render d) = map chomp (diff_lines d).
Proof.
  unfold no_bare_cr, render. induction (diff_lines d) as [|l ls IH]; [done |].
  cbn [forallb fold_right map]. intros [Hl Hls]%andb_prop.
  rewrite splitlines_crlf_line by done. by rewrite IH.
Qed.

Lemma filter_added_chomp (ls : list string) :
  filter (fun l => is_added l = true) (map chomp ls)
  = map chomp (filter (fun l => is_added l = true) ls).
Proof.
  induction ls as [|l ls IH]; [done |].
  cbn [map]. rewrite !filter_cons, is_added_chomp.
  destruct (decide (is_added l = true)); cbn [map]; by rewrite IH.
Qed.

(** What [check_file] numbers in a well-formed diff without bare
    carriage returns: the added lines of its hunks, each without the
    carriage return of its CRLF end. *)
Lemma added_records_render (d : file_diff) :
  well_formed d = true -> no_bare_cr d = true ->
  added_records (render d) = flat_map hunk_records (hunks d).
Proof.
  intros Hd Hcr. unfold added_records.
  rewrite splitlines_render, <- diff_lines_chomp by done.
  apply well_formed_chomp in Hd.
  unfold well_formed, diff_lines in Hd. apply andb_prop in Hd as [Hpre Hks].
  unfold diff_lines. rewrite added_lines_preamble by done.
  rewrite (added_lines_hunks _ _ _ Hks). unfold chomp_diff. cbn [hunks].
  clear. induction (hunks d) as [|k ks IH]; [done |].
  cbn [map flat_map]. rewrite IH. f_equal.
  unfold hunk_records, chomp_hunk. cbn [new_range hunk_body].
  by rewrite filter_added_chomp.
Qed.

Lemma number_from_length (n : Z) (ls : list string) :
  length (number_from n ls) = length ls.
Proof. revert n. induction ls as [|l ls IH]; intros n; simpl; auto. Qed.

Lemma number_from_bounds (n : Z) (ls : list string) (x : Z) :
  x ∈ map fst (number_from n ls) -> n <= x < n + Z.of_nat (length ls).
Proof.
  revert n. induction ls as [|l ls IH]; intros n; cbn [number_from map length fst].
  - by intros ?%elem_of_nil.
  - intros [-> | Hx%IH]%elem_of_cons; lia.
Qed.

Lemma number_from_sorted (n : Z) (ls : list string) :
  StronglySorted Z.lt (map fst (number_from n ls)).
Proof.
  revert n. induction ls as [|l ls IH]; intros n; cbn [number_from map fst].
  - constructor.
  - constructor; [apply IH |].
    apply Forall_forall. intros x Hx. apply number_from_bounds in Hx. simpl. lia.
Qed.

Lemma filter_length_mono {A} (P Q : A -> Prop)
    `{!forall x, Decision (P x)} `{!forall x, Decision (Q x)} (l : list A) :
  (forall x, P x -> Q x) -> (length (filter P l) <= length (filter Q l))%nat.
Proof.
  intros HPQ. induction l as [|x l IH]; [done |].
  rewrite !filter_cons. destruct (decide (P x)) as [Hp | Hp].
  - rewrite decide_True by auto. simpl. lia.
  - destruct (decide (Q x)); simpl; lia.
Qed.

Lemma is_added_marker (l : string) :
  is_added l = true -> has_marker [" "; "+"]%char l = true.
Proof.
  rewrite is_added_startswith. intros [H _]%andb_prop.
  destruct l as [|c l]; [done |]. simpl in H.
  apply andb_prop in H as [Hc _]. apply Ascii.eqb_eq in Hc. by subst c.
Qed.

Lemma hunk_records_count (k : hunk) :
  hunk_ok k = true ->
  Z.of_nat (length (hunk_records k)) <= Z.of_N (count_of (new_range k)).
Proof.
  unfold hunk_ok. intros [_ Hn]%andb_prop. apply N.eqb_eq in Hn.
  rewrite <- Hn, nat_N_Z. apply inj_le. unfold hunk_records.
  rewrite number_from_length, length_map.
  apply filter_length_mono. apply is_added_marker.
Qed.

Lemma hunk_records_bounds (k : hunk) (x : Z) :
  hunk_ok k = true -> x ∈ map fst (hunk_records k) ->
  Z.of_N (range_start (new_range k)) <= x
  < Z.of_N (range_start (new_range k) + count_of (new_range k)).
Proof.
  intros Hk Hx. pose proof (hunk_records_count k Hk) as Hc.
  unfold hunk_records in *. rewrite number_from_length in Hc.
  apply number_from_bounds in Hx. rewrite length_map in *. lia.
Qed.

(** Within a well-formed hunk list the numbers ascend, and none lies
    below the bound the list starts from. *)
Lemma hunks_sorted (ks : list hunk) (low : N) :
  hunks_ok low ks = true ->
  Forall (fun x => Z.of_N low <= x) (map fst (flat_map hunk_records ks))
  /\ StronglySorted Z.lt (map fst (flat_map hunk_records ks)).
Proof.
  revert low. induction ks as [|k ks IH]; intros low.
  - intros _. split; constructor.
  - cbn [hunks_ok flat_map]. intros [[Hlow Hk]%andb_prop Hks]%andb_prop.
    apply N.leb_le in Hlow. destruct (IH _ Hks) as [Hge Hsorted].
    rewrite map_app. split.
    + apply Forall_app. split.
      * apply Forall_forall. intros x Hx. apply hunk_records_bounds in Hx; [lia | done].
      * eapply Forall_impl; [exact Hge |]. simpl. intros x Hx. lia.
    + apply StronglySorted_app_2; [| apply number_from_sorted | done].
      intros x1 x2 Hx1 Hx2. apply hunk_records_bounds in Hx1; [| done].
      rewrite Forall_forall in Hge. apply Hge in Hx2. lia.
Qed.

End LoopFacts.

(** * The claims about [check_file] *)

Section CheckFileClaims.
Import Py UnifiedDiff Chartest Samples MoreSamples.
#[local] Arguments Ascii.eqb : simpl never.

(** C3, as the specification words it, fails: a well-formed unified
    diff can hold a bare carriage return inside an added line, and
    [splitlines] breaks the line there.  On [diff_bare_cr] the pieces of
    the first added line are numbered 1, 2, 3 and 4, and the line the
    second hunk adds as line 4 gets the number 4 again. *)
Lemma bare_cr_numbers_repeat :
  well_formed diff_bare_cr = true
  /\ map fst (added_records (render diff_bare_cr)) = [1; 2; 3; 4; 4]
  /\ ~ (forall d, well_formed d = true ->
          StronglySorted Z.lt (map fst (added_records (render d)))).
Proof.
  split; [reflexivity |]. split; [reflexivity |].
  intros H. specialize (H diff_bare_cr eq_refl).
  change (StronglySorted Z.lt [1; 2; 3; 4; 4]) in H.
  do 3 apply StronglySorted_inv in H as [H _].
  apply StronglySorted_inv in H as [_ H].
  apply Forall_inv in H. lia.
Qed.

(** C3, amended. For a well-formed unified diff in which a carriage
    return stands only at the end of a line, right before the newline
    (the CRLF line end), the added lines are numbered hunk by hunk from
    the start of the new range of the hunk header, the numbers ascend
    strictly through the file, the messages [check_file] prints are
    those of these numbered lines, and one turn of the loop raises the
    counter by one on an added line and leaves it alone on any other
    line that is no hunk header (context, deleted and empty lines among
    them). *)
Theorem added_line_numbers_ascend (d : file_diff) :
  well_formed d = true ->
  no_bare_cr d = true ->
  added_records (render d) = flat_map hunk_records (hunks d)
  /\ StronglySorted Z.lt (map fst (added_records (render d)))
  /\ check_file (render d)
     = ((if contains NO_EOF_MARKER (render d) then ["No EOF newline"] else [])
        ++ flat_map line_errors (added_records (render d)))%list
  /\ (forall n errs line,
        fst (check_line (n, errs) line)
        = if is_added line then n + 1 else reseed n line)
  /\ (forall n line, startswith "@@" line = false -> reseed n line = n)
  /\ (forall line,
        line = "" \/ startswith " " line = true \/ startswith "-" line = true
        \/ startswith "@@" line = true ->
        is_added line = false).
Proof.
  intros Hd Hcr. split; [by apply added_records_render |].
  split.
  { rewrite added_records_render by done.
    unfold well_formed in Hd. apply andb_prop in Hd as [_ Hks].
    by apply hunks_sorted in Hks as [_ ?]. }
  split; [apply check_file_records |].
  split.
  { intros n errs line. destruct (is_added line) eqn:E.
    - by rewrite check_line_added.
    - by rewrite check_line_skip. }
  split; [apply reseed_other |].
  intros line [-> | [H | [H | H]]]; [done | | | by apply header_not_added];
    rewrite is_added_startswith; destruct line as [|c line]; try done;
    simpl in H; apply andb_prop in H as [Hc _]; apply Ascii.eqb_eq in Hc;
    by subst c.
Qed.

Lemma added_line_numbers_ascend_witness :
  (well_formed diff_x = true /\ no_bare_cr diff_x = true
   /\ added_records (render diff_x)
      = [(19, "+foo()" +:+ tab); (20, "+bar  "); (33, "+new")]
   /\ StronglySorted Z.lt (map fst (added_records (render diff_x))))
  /\ (well_formed diff_crlf = true /\ no_bare_cr diff_crlf = true
      /\ added_records (render diff_crlf) = [(3, "+a" +:+ tab); (4, "+b")]
      /\ StronglySorted Z.lt (map fst (added_records (render diff_crlf)))).
Proof.
  split.
  - split; [reflexivity |]. split; [reflexivity |].
    pose proof (added_line_numbers_ascend diff_x eq_refl eq_refl) as (Hrec & Hsorted & _).
    split; [rewrite Hrec; reflexivity | exact Hsorted].
  - split; [reflexivity |]. split; [reflexivity |].
    pose proof (added_line_numbers_ascend diff_crlf eq_refl eq_refl) as (Hrec & Hsorted & _).
    split; [rewrite Hrec; reflexivity | exact Hsorted].
Defined.















End CheckFileClaims.

Section ViolationClaims.
Import Py UnifiedDiff Chartest Samples.
#[local] Arguments Ascii.eqb : simpl never.

(** The forbidden code points, as a test. *)
Lemma critical_chars_codes (c : ascii) :
  existsb (Ascii.eqb c) CRITICAL_CHARS
  = ((ord c <=? 0x09) || ((0x0b <=? ord c) && (ord c <=? 0x1f)) || (ord c =? 0x7f))%N.
Proof.
  destruct c as [[] [] [] [] [] [] [] []]; vm_compute; reflexivity.
Qed.

Lemma critical_chars_spec (c : ascii) :
  c ∈ CRITICAL_CHARS
  <-> (ord c <= 0x09 \/ 0x0b <= ord c <= 0x1f \/ ord c = 0x7f)%N.
Proof.
  rewrite list_elem_of_In.
  transitivity (existsb (Ascii.eqb c) CRITICAL_CHARS = true).
  - rewrite existsb_exists. split.
    + intros H. exists c. split; [done | apply Ascii.eqb_refl].
    + intros (y & Hy & ->%Ascii.eqb_eq). done.
  - rewrite critical_chars_codes, !orb_true_iff, andb_true_iff,
      !N.leb_le, N.eqb_eq. tauto.
Qed.

Lemma flat_map_nil {A B} (f : A -> list B) (l : list A) :
  Forall (fun x => f x = []) l -> flat_map f l = [].
Proof. induction 1 as [|x l Hx _ IH]; simpl; [done |]. by rewrite Hx, IH. Qed.

Lemma char_errors_single_tab (n : Z) (line : string) :
  count TAB line = 1 ->
  (forall y, y ∈ CRITICAL_CHARS -> y <> TAB -> count y line = 0) ->
  char_errors n line = [tab_message 1 n line].
Proof.
  intros Htab Hother. unfold char_errors.
  assert (CRITICAL_CHARS
          = (map chr (range 0 9) ++ TAB :: map chr (range 0x0b 0x20 ++ [0x7f%N]))%list)
    as Hsplit by reflexivity.
  assert (forall l, Forall (fun y => y <> TAB) l ->
                    (forall y, y ∈ l -> y ∈ CRITICAL_CHARS) ->
                    flat_map (char_error n line) l = []) as Hnil.
  { intros l Hl Hin. apply flat_map_nil. apply Forall_forall. intros y Hy.
    rewrite Forall_forall in Hl. unfold char_error.
    by rewrite (Hother y (Hin y Hy) (Hl y Hy)). }
  rewrite Hsplit at 1. rewrite flat_map_app. cbn [flat_map].
  rewrite !Hnil.
  - unfold char_error at 1. rewrite Htab. reflexivity.
  - by apply (bool_decide_unpack _).
  - intros y Hy. rewrite Hsplit. apply elem_of_app. right. apply elem_of_cons. by right.
  - by apply (bool_decide_unpack _).
  - intros y Hy. rewrite Hsplit. apply elem_of_app. by left.
Qed.

(** C6. An added line with exactly one tab and no other forbidden
    character gets exactly one forbidden-character message: one copy, code
    0x9, the line number, the line, and the mark of a new tab.  The
    forbidden characters are the code points 0x00-0x09, 0x0b-0x1f and
    0x7f; the newline 0x0a is not among them. *)
Theorem single_tab_violation (n : Z) (errs : list string) (line : string) :
  is_added line = true ->
  count TAB line = 1 ->
  (forall y, y ∈ CRITICAL_CHARS -> y <> TAB -> count y line = 0) ->
  char_errors n line = [tab_message 1 n line]
  /\ check_line (n, errs) line
     = (n + 1, (errs ++ trailing_errors n line ++ [tab_message 1 n line])%list)
  /\ tab_message 1 n line
     = ("1 copies of char 0x9 on line " +:+ str_of_Z n +:+ " : ' " +:+ line +:+ " '")
       +:+ " => new TABs"
  /\ (forall c, c ∈ CRITICAL_CHARS
                <-> (ord c <= 0x09 \/ 0x0b <= ord c <= 0x1f \/ ord c = 0x7f)%N)
  /\ LF ∉ CRITICAL_CHARS.
Proof.
  intros Hadd Htab Hother.
  pose proof (char_errors_single_tab n line Htab Hother) as Hc.
  split; [done |]. split.
  { rewrite check_line_added by done. unfold line_errors. simpl. by rewrite Hc. }
  split; [reflexivity |].
  split; [apply critical_chars_spec |].
  rewrite critical_chars_spec. vm_compute. intros [H | [[H _] | H]]; by try discriminate.
Qed.

Lemma single_tab_violation_witness :
  is_added ("+foo()" +:+ tab) = true
  /\ char_errors 19 ("+foo()" +:+ tab)
     = [ ("1 copies of char 0x9 on line 19 : ' +foo()" +:+ tab +:+ " '") +:+ " => new TABs" ].
Proof.
  split; [reflexivity |].
  refine (proj1 (single_tab_violation 19 [] ("+foo()" +:+ tab) eq_refl eq_refl _)).
  apply (Forall_forall (fun y => y <> TAB -> count y ("+foo()" +:+ tab) = 0)).
  by apply (bool_decide_unpack _).
Defined.

Lemma str_of_N_head_digit (n : N) (t : string) :
  exists c s, str_of_N n +:+ t = String c s /\ is_digit c = true.
Proof.
  destruct (str_of_N_head n) as (c & s & -> & Hc).
  exists c, (s +:+ t). by rewrite append_cons.
Qed.

(** A message that opens with a number is not the end-of-file message. *)
Lemma numbered_message_other (z : Z) (t : string) :
  str_of_Z z +:+ t <> "No EOF newline".
Proof.
  unfold str_of_Z. destruct (z <? 0).
  - rewrite append_cons. discriminate.
  - destruct (str_of_N_head_digit (Z.abs_N z) t) as (c & s & -> & Hc).
    intros [= -> _]. by vm_compute in Hc.
Qed.

Lemma line_errors_other (rec : Z * string) :
  Forall (fun e => e <> "No EOF newline") (line_errors rec).
Proof.
  unfold line_errors. apply Forall_app. split.
  - unfold trailing_errors. destruct (_ =? 0); [constructor |].
    constructor; [apply numbered_message_other | constructor].
  - unfold char_errors. apply Forall_flat_map, Forall_forall. intros y _.
    unfold char_error. destruct (_ =? 0); [constructor |].
    constructor; [| constructor].
    destruct (_ =? _)%N; [rewrite append_assoc |]; apply numbered_message_other.
Qed.

(** C7. [check_file] reports the missing final newline exactly once
    when the marker occurs in the diff, however many lines the diff adds,
    and not at all otherwise. *)
Theorem eof_violation_once (diff : string) :
  count_occ string_dec (check_file diff) "No EOF newline"
  = if contains NO_EOF_MARKER diff then 1%nat else 0%nat.
Proof.
  rewrite check_file_records, count_occ_app.
  assert (count_occ string_dec (flat_map line_errors (added_records diff))
            "No EOF newline" = 0%nat) as ->.
  { apply count_occ_not_In. intros (rec & _ & Hin)%in_flat_map.
    pose proof (line_errors_other rec) as H. rewrite Forall_forall in H.
    by apply list_elem_of_In, H in Hin. }
  by destruct (contains NO_EOF_MARKER diff).
Qed.

End ViolationClaims.

(** * The claims about [CharCheck.run] *)

Section MonadFacts.
Import Task.

Lemma bind_ok {S A B} (m : M S A) (k : A -> M S B) (s s' : S) (a : A) :
  m s = (Ok a, s') -> bind m k s = k a s'.
Proof. intros H. unfold bind. by rewrite H. Qed.

Lemma bind_raise {S A B} (m : M S A) (k : A -> M S B) (s s' : S) (e : exn) :
  m s = (Raise e, s') -> bind m k s = (Raise e, s').
Proof. intros H. unfold bind. by rewrite H. Qed.

End MonadFacts.

(** One step through a [bind] whose result is known to be a value. *)
Ltac step_bind :=
  match goal with
  | |- Task.bind ?m ?k ?s = _ -> _ =>
      let E := fresh "E" in
      destruct (m s) as [[?|?] ?] eqn:E;
      [ rewrite (bind_ok _ _ _ _ _ E) | rewrite (bind_raise _ _ _ _ _ E); discriminate ]
  end.

Section RunClaims.
Import Task Chartest Samples.
Context (h : host).

(** What [git_clone] leaves in the trace: nothing when the target is
    there, the one clone command otherwise. *)
Lemma git_clone_trace (url sha target : value) (wd : string) (tr tr' : trace)
    (code : option Z) :
  git_clone h url sha target wd tr = (Ok code, tr') ->
  (code = None /\ tr' = tr)
  \/ (exists c cmd, code = Some c /\ tr' = (tr ++ [Call cmd])%list
                    /\ Py.startswith "git clone " cmd = true).
Proof.
  unfold git_clone, bind, lift_outcome, ret.
  set (target0 := if is_None target then sha else target).
  destruct (negb (String.eqb wd "")).
  - destruct (os_path_join wd target0) as [t|e]; [| done]. simpl.
    destruct (path_exists h tr (abspath_of h t)); simpl.
    + intros [= <- <-]. by left.
    + destruct url as [| | |u]; try done. destruct sha as [| | |s]; try done.
      simpl. unfold system, subprocess_call. simpl.
      destruct (run_call h tr _) as [c|e] eqn:E; [| done].
      intros [= <- <-]. right. eexists _, _. split; [done |]. split; [done |].
      reflexivity.
  - destruct (os_path_abspath h target0) as [t|e] eqn:Et; [| done].
    destruct (path_exists h tr t); simpl.
    + intros [= <- <-]. by left.
    + destruct url as [| | |u]; try done. destruct sha as [| | |s]; try done.
      simpl. unfold system, subprocess_call. simpl.
      destruct (run_call h tr _) as [c|e] eqn:E; [| done].
      intros [= <- <-]. right. eexists _, _. split; [done |]. split; [done |].
      reflexivity.
Qed.


(** C8. A job document whose kwargs have no 'sha' gets
    [{success: False, reason: 'missing revision id'}], and the trace of
    commands is what it was: nothing was cloned or fetched. *)
Theorem missing_sha_short_circuits (doc : document) (wd : string) (tr : trace) :
  default ∅ (doc_kwargs doc) !! "sha" = None ->
  Chartest.run h doc wd tr
  = (Ok {| success := false; reason := Some "missing revision id"; code := None;
           errors := None; attachments := None; attach_links := None |},
     tr).
Proof. intros H. unfold Chartest.run. rewrite H. reflexivity. Qed.

(** C9. When the clone step returns anything but 0 or 1, [run] returns
    [{success: False, reason: 'git clone failed', code: str(code)}] in
    the state the clone left, which holds at most the clone command: no
    fetch and no check was run.  The code is the decimal numeral of the
    exit code, which [int] reads back as that code (for the code 2 the
    string "2"), and "None" when the clone step returned [None].  On 0
    and on 1 the run goes on with the fetch. *)
Theorem clone_failure_short_circuits (doc : document) (wd : string)
    (tr tr' : trace) (exit_code : option Z) :
  let kwargs := default ∅ (doc_kwargs doc) in
  let sha := default VNone (kwargs !! "sha") in
  let git_url := default VNone (kwargs !! "git_url") in
  let base_repo_ref := default VNone (kwargs !! "base_repo_ref") in
  let base_repo_url := default VNone (kwargs !! "base_repo_url") in
  validate sha git_url base_repo_ref base_repo_url = None ->
  git_clone h base_repo_url base_repo_ref base_repo_ref wd tr = (Ok exit_code, tr') ->
  (exit_code <> Some 0 -> exit_code <> Some 1 ->
   Chartest.run h doc wd tr
   = (Ok {| success := false; reason := Some "git clone failed";
            code := Some (match exit_code with
                          | Some c => Py.str_of_Z c
                          | None => "None"
                          end);
            errors := None; attachments := None; attach_links := None |},
      tr'))
  /\ (forall c, exit_code = Some c ->
        Py.int (Py.str_of_Z c) = Some c
        /\ (c = 2 -> Py.str_of_Z c = "2")
        /\ (0 <= c -> Py.all_chars Py.is_digit (Py.str_of_Z c) = true))
  /\ (exit_code = Some 0 \/ exit_code = Some 1 ->
      Chartest.run h doc wd tr = fetch_and_check h sha git_url base_repo_ref wd tr')
  /\ (tr' = tr \/ exists cmd, tr' = (tr ++ [Call cmd])%list
                              /\ Py.startswith "git clone " cmd = true).
Proof.
  intros kwargs sha git_url base_repo_ref base_repo_url Hvalid Hclone.
  assert (Chartest.run h doc wd tr
          = if unusable exit_code
            then (Ok (failure "git clone failed" (Some (str_code exit_code))), tr')
            else fetch_and_check h sha git_url base_repo_ref wd tr') as Hrun.
  { unfold Chartest.run.
    fold kwargs. fold sha. fold git_url. fold base_repo_ref. fold base_repo_url.
    rewrite Hvalid. unfold clone_and_check.
    rewrite (bind_ok _ _ _ _ _ Hclone). by destruct (unusable exit_code). }
  split; [| split; [| split]].
  - intros H0 H1. rewrite Hrun.
    replace (unusable exit_code) with true; [by destruct exit_code |].
    destruct exit_code as [c|]; [| done]. simpl.
    destruct (Z.eqb_spec c 0) as [-> |]; [done |].
    destruct (Z.eqb_spec c 1) as [-> |]; done.
  - intros c _. split; [apply int_str_of_Z |]. split; [by intros -> |].
    intros Hc. unfold Py.str_of_Z.
    destruct (Z.ltb_spec c 0); [lia | apply str_of_N_digits].
  - intros [-> | ->]; by rewrite Hrun.
  - apply git_clone_trace in Hclone as [[_ ->] | (c & cmd & _ & -> & Hcmd)]; eauto.
Qed.

(** C10. With 'sha' and 'git_url' given and neither 'base_repo_url' nor
    'base_repo_ref' present, the input checks let the job through and
    [run] is [git_clone(None, None, None, work_dir)] followed by the rest
    of the method: the clone is attempted with [None] for the URL and for
    the revision (and raises where it first uses them as strings). *)
Theorem absent_base_passes_validation (doc : document) (wd : string) (tr : trace)
    (sha git_url : value) :
  default ∅ (doc_kwargs doc) !! "sha" = Some sha -> sha <> VNone ->
  default ∅ (doc_kwargs doc) !! "git_url" = Some git_url -> git_url <> VNone ->
  default ∅ (doc_kwargs doc) !! "base_repo_url" = None ->
  default ∅ (doc_kwargs doc) !! "base_repo_ref" = None ->
  validate sha git_url VNone VNone = None
  /\ Chartest.run h doc wd tr
     = bind (git_clone h VNone VNone VNone wd)
            (fun exit_code =>
               if unusable exit_code
               then ret (failure "git clone failed" (Some (str_code exit_code)))
               else fetch_and_check h sha git_url VNone wd) tr
  /\ Chartest.run h doc wd tr
     = (Raise (AttributeError "'NoneType' object has no attribute 'startswith'"), tr).
Proof.
  intros Hsha Hs Hurl Hu Hbu Hbr.
  assert (validate sha git_url VNone VNone = None) as Hvalid.
  { unfold validate. destruct sha; [done | ..]; destruct git_url; done. }
  assert (Chartest.run h doc wd tr
          = clone_and_check h sha git_url VNone VNone wd tr) as Hrun.
  { unfold Chartest.run. rewrite Hsha, Hurl, Hbu, Hbr. simpl. by rewrite Hvalid. }
  split; [done |]. split; [done |].
  rewrite Hrun. unfold clone_and_check. apply bind_raise.
  unfold git_clone, bind, lift_outcome. simpl.
  by destruct (negb (String.eqb wd "")).
Qed.

(** Whatever [run] returns is one of the short-circuit failures: after
    a usable clone and fetch the method ends by reading the unbound name
    [success]. *)
Lemma run_returns_only_failures (doc : document) (wd : string) (tr tr' : trace)
    (r : results) :
  Chartest.run h doc wd tr = (Ok r, tr') ->
  success r = false /\ errors r = None /\ is_Some (reason r).
Proof.
  unfold Chartest.run.
  destruct (validate _ _ _ _) as [r0|] eqn:Hv.
  - intros [= <- <-]. unfold validate in Hv.
    repeat (destruct (_ : bool) in Hv; [injection Hv as <-; by eauto |]). done.
  - unfold clone_and_check. step_bind.
    destruct (unusable _); [intros [= <- <-]; by eauto |].
    unfold fetch_and_check. step_bind. step_bind.
    destruct (unusable _); [intros [= <- <-]; by eauto |].
    unfold check_and_report. step_bind.
    match goal with |- context [let '(_, _) := ?p in _] => destruct p as [ok errs] end.
    step_bind. unfold bind, load_name.
    rewrite lookup_singleton_ne by done. done.
Qed.

End RunClaims.


Section ChangedFiles.
Import Task Chartest Protocol.
Context (h : host).

(** The loop of [check_changed_files]: the flag stays up exactly when
    every file checked so far came out clean. *)
Lemma check_each_spec (files : list string) (sha repo_dir : value)
    (s0 : bool) (e0 : gmap string (list string)) (tr : trace)
    (s : bool) (e : gmap string (list string)) (tr' : trace) :
  check_each h files sha repo_dir s0 e0 tr = (Ok (s, e), tr') ->
  (s = true -> s0 = true /\ forall f, f ∈ files -> e !! f = Some [])
  /\ (forall f, f ∉ files -> e !! f = e0 !! f)
  /\ (forall f, f ∈ files -> is_Some (e !! f))
  /\ (NoDup files -> s0 = true -> (forall f, f ∈ files -> e !! f = Some []) ->
      s = true).
Proof.
  revert s0 e0 tr. induction files as [|f fs IH]; intros s0 e0 tr.
  - intros [= <- <- <-]. repeat split; try done.
    all: intros f Hf; by apply elem_of_nil in Hf.
  - cbn [check_each]. step_bind.
    match goal with |- check_each _ _ _ _ ?s1 ?e1 _ = _ -> _ =>
      set (s1' := s1); set (e1' := e1) end.
    intros Hrest. destruct (IH _ _ _ Hrest) as (Hup & Hout & Hin & Hdown).
    assert (f ∉ fs -> e !! f = Some (check_file a)) as Hf.
    { intros Hnot. rewrite (Hout f Hnot). apply lookup_insert_eq. }
    split; [| split; [| split]].
    + intros Hs. destruct (Hup Hs) as [Hs1 Hclean].
      assert (check_file a = [] /\ s0 = true) as [Ha Hs0].
      { subst s1'. by destruct (check_file a). }
      split; [done |]. intros g [-> | Hg]%elem_of_cons; [| by apply Hclean].
      destruct (decide (f ∈ fs)) as [Hg | Hg]; [by apply Hclean |].
      by rewrite (Hf Hg), Ha.
    + intros g [Hne Hg]%not_elem_of_cons.
      rewrite (Hout g Hg). subst e1'. by rewrite lookup_insert_ne.
    + intros g [-> | Hg]%elem_of_cons; [| by apply Hin].
      destruct (decide (f ∈ fs)) as [Hg | Hg]; [by apply Hin |].
      by rewrite (Hf Hg).
    + intros [Hnot Hnd]%NoDup_cons Hs0 Hclean.
      apply Hdown; [done | | intros g Hg; apply Hclean; by apply elem_of_cons; right].
      assert (check_file a = []) as Ha.
      { pose proof (Hclean f ltac:(by apply elem_of_cons; left)) as Hc.
        rewrite (Hf Hnot) in Hc. by injection Hc. }
      subst s1'. by rewrite Ha.
Qed.

(** [check_changed_files] returns [True] exactly when every violation
    list in the mapping it returns is empty. *)
Lemma check_changed_files_success (sha repo_dir : value) (tr tr1 tr' : trace)
    (files : list string) (s : bool) (e : gmap string (list string)) :
  get_changed_files h sha repo_dir tr = (Ok files, tr1) ->
  NoDup files ->
  check_changed_files h sha repo_dir tr = (Ok (s, e), tr') ->
  s = true <-> map_Forall (fun _ v => v = []) e.
Proof.
  intros Hfiles Hnd. unfold check_changed_files.
  rewrite (bind_ok _ _ _ _ _ Hfiles).
  set (code_files := filter _ files).
  intros (Hup & Hout & Hin & Hdown)%check_each_spec. split.
  - intros Hs f v Hv. destruct (Hup Hs) as [_ Hclean].
    destruct (decide (f ∈ code_files)) as [Hf | Hf].
    + rewrite (Hclean f Hf) in Hv. by injection Hv.
    + by rewrite (Hout f Hf) in Hv.
  - intros Hall. apply Hdown; [by apply NoDup_filter | done |].
    intros f Hf. destruct (Hin f Hf) as [v Hv].
    by rewrite Hv, (Hall f v Hv).
Qed.

End ChangedFiles.

Section RunAtSamples.
Import Task Chartest Samples MoreSamples.

Lemma missing_sha_short_circuits_witness :
  default ∅ (doc_kwargs (job kwargs_no_sha)) !! "sha" = None
  /\ fst (Chartest.run host_ok (job kwargs_no_sha) "/tmp/tmpXYZ" [])
     = Ok (failure "missing revision id" None).
Proof.
  split; [reflexivity |].
  by rewrite (missing_sha_short_circuits host_ok (job kwargs_no_sha) "/tmp/tmpXYZ" []).
Defined.

Lemma clone_failure_short_circuits_witness :
  validate (VStr "abc123") (VStr "git://fork/repo.git") (VStr "master")
           (VStr "git://base/repo.git") = None
  /\ fst (git_clone host_clone_fails (VStr "git://base/repo.git") (VStr "master")
            (VStr "master") "/tmp/tmpXYZ" []) = Ok (Some 2)
  /\ fst (Chartest.run host_clone_fails (job kwargs_full) "/tmp/tmpXYZ" [])
     = Ok {| success := false; reason := Some "git clone failed"; code := Some "2";
             errors := None; attachments := None; attach_links := None |}
  /\ fst (git_clone host_clone_refused (VStr "git://base/repo.git") (VStr "master")
            (VStr "master") "/tmp/tmpXYZ" []) = Ok (Some 128)
  /\ fst (Chartest.run host_clone_refused (job kwargs_full) "/tmp/tmpXYZ" [])
     = Ok {| success := false; reason := Some "git clone failed"; code := Some "128";
             errors := None; attachments := None; attach_links := None |}.
Proof.
  split; [reflexivity |]. split; [reflexivity |]. split; [| split; [reflexivity |]].
  - pose proof (clone_failure_short_circuits host_clone_fails (job kwargs_full)
                  "/tmp/tmpXYZ" []
                  (snd (git_clone host_clone_fails (VStr "git://base/repo.git")
                          (VStr "master") (VStr "master") "/tmp/tmpXYZ" []))
                  (Some 2) eq_refl eq_refl) as [H _].
    rewrite H by discriminate. reflexivity.
  - pose proof (clone_failure_short_circuits host_clone_refused (job kwargs_full)
                  "/tmp/tmpXYZ" []
                  (snd (git_clone host_clone_refused (VStr "git://base/repo.git")
                          (VStr "master") (VStr "master") "/tmp/tmpXYZ" []))
                  (Some 128) eq_refl eq_refl) as [H _].
    rewrite H by discriminate. reflexivity.
Defined.

Lemma absent_base_passes_validation_witness :
  default ∅ (doc_kwargs (job kwargs_no_base)) !! "base_repo_url" = None
  /\ default ∅ (doc_kwargs (job kwargs_no_base)) !! "base_repo_ref" = None
  /\ Chartest.run host_ok (job kwargs_no_base) "/tmp/tmpXYZ" []
     = (Raise (AttributeError "'NoneType' object has no attribute 'startswith'"), []).
Proof.
  split; [reflexivity |]. split; [reflexivity |].
  apply (absent_base_passes_validation host_ok (job kwargs_no_base) "/tmp/tmpXYZ" []
           (VStr "abc123") (VStr "git://fork/repo.git"));
    reflexivity || discriminate.
Defined.

(** C1 does not hold of the code.  On a job with all four inputs, on a
    machine where clone and fetch exit with 0 and the one changed file is
    clean, [check_changed_files] returns [True] and an empty violation
    list for the file, and [run] then raises [NameError] instead of
    returning a result: the pair is bound to [sucsess], the result
    dictionary reads [success]. *)
Theorem run_reads_unbound_success :
  validate (VStr "abc123") (VStr "git://fork/repo.git") (VStr "master")
           (VStr "git://base/repo.git") = None
  /\ (forall tr,
        fst (check_changed_files host_ok (VStr "abc123") (VStr "/tmp/tmpXYZ/master") tr)
        = Ok (true, {[ "x.c" := [] ]}))
  /\ fst (Chartest.run host_ok (job kwargs_full) "/tmp/tmpXYZ" [])
     = Raise (NameError "global name 'success' is not defined")
  /\ map (fun ev => match ev with Call _ => "call" | CheckOutput _ => "output"
                                | WriteFile _ _ => "write" end)
         (snd (Chartest.run host_ok (job kwargs_full) "/tmp/tmpXYZ" []))
     = ["call"; "call"; "call"; "output"; "output"; "write"].
Proof.
  split; [reflexivity |]. split; [intros tr; reflexivity |].
  split; reflexivity.
Qed.

End RunAtSamples.

(** * The claim about [Task.__call__] *)

Section LifecycleClaims.
Import Task Protocol Samples.
Context (h : host).

(** [Task.__init__] gives a task that holds the stored version of its
    document, in a store that files documents under their ids. *)
Lemma init_loaded (db : store) (tr : trace) (id wd : string) (st : state) :
  (forall i d, docs db !! i = Some d -> doc_id d = i) ->
  init db tr id wd = Ok st -> loaded st.
Proof.
  intros Hkeys. unfold init, store_get, loaded.
  destruct (docs db !! id) as [d|] eqn:E; [| done].
  intros [= <-]. cbn. by rewrite (Hkeys _ _ E).
Qed.

Lemma start_loaded (st : state) :
  loaded st ->
  start h st
  = (Ok tt,
     with_document (started_document h st)
       (with_database
          {| docs := <[doc_id (self_document st) := started_document h st]>
                       (docs (database st));
             blobs := blobs (database st) |} st)).
Proof.
  unfold loaded. intros Hl.
  unfold start, bind, update_document, save_document, reload_document, store_save,
    store_get. cbn. rewrite Hl, N.eqb_refl. cbn.
  rewrite lookup_insert_eq. reflexivity.
Qed.

(** [finish] on a result without attachments, for a task that holds the
    stored version of its document. *)
Lemma finish_plain (r : results) (st : state) :
  attachments r = None -> loaded st ->
  exists st',
    finish h r st = (Ok tt, st')
    /\ shell st' = shell st
    /\ docs (database st') !! doc_id (self_document st)
       = Some (set_rev (doc_rev (self_document st) + 1)
                 (set_completed (time_time h (shell st))
                    (set_results r (self_document st)))).
Proof.
  unfold loaded. intros Hr Hl.
  unfold finish. rewrite Hr.
  unfold bind, update_document, save_document, store_save. cbn.
  rewrite Hl, N.eqb_refl. cbn.
  eexists. split; [reflexivity |]. split; [reflexivity |]. cbn.
  by rewrite lookup_insert_eq.
Qed.

(** C2, amended. When the task body raises something that derives from
    [Exception], [__call__] returns normally; the result it hands to
    [finish] has [success = False] and a reason that embeds [str(e)]; and
    the stored job document ends up with that result and a [completed]
    time stamp. *)
Theorem unhandled_fault_is_recorded (run : body) (st : state) (e : exn) (tr' : trace) :
  loaded st ->
  run (started_document h st) (self_work_dir st) (shell st) = (Raise e, tr') ->
  exc_is_Exception e = true ->
  exists st' d,
    call h run st = (Ok tt, st')
    /\ shell st' = tr'
    /\ docs (database st') !! doc_id (self_document st) = Some d
    /\ doc_results d = Some (unhandled e)
    /\ success (unhandled e) = false
    /\ reason (unhandled e) = Some ("Unhandled exception in task: " +:+ exc_str e)
    /\ doc_completed d = Some (time_time h tr')
    /\ doc_started d = Some (time_time h (shell st)).
Proof.
  intros Hl Hrun He.
  unfold call. rewrite (bind_ok _ _ _ _ _ (start_loaded st Hl)).
  set (st1 := with_document _ _).
  assert (loaded (with_shell tr' st1)) as Hl1.
  { unfold loaded, st1. cbn. by rewrite lookup_insert_eq. }
  destruct (finish_plain (unhandled e) (with_shell tr' st1) eq_refl Hl1)
    as (st' & Hfin & Hsh & Hdoc).
  exists st'. eexists.
  split.
  { erewrite bind_ok; [exact Hfin |].
    unfold in_shell. subst st1. cbn. rewrite Hrun, He. reflexivity. }
  split; [by rewrite Hsh |].
  split; [exact Hdoc |].
  repeat split.
Qed.

(** [except Exception] is no bare [except]: what does not derive from
    [Exception] leaves [__call__] and the document stays unfinished. *)
Lemma call_lets_exits_through (run : body) (st st1 : state) (e : exn)
    (tr' : trace) :
  start h st = (Ok tt, st1) ->
  run (self_document st1) (self_work_dir st1) (shell st1) = (Raise e, tr') ->
  exc_is_Exception e = false ->
  call h run st = (Raise e, with_shell tr' st1).
Proof.
  intros Hstart Hrun He. unfold call.
  rewrite (bind_ok _ _ _ _ _ Hstart).
  apply bind_raise. unfold in_shell. by rewrite Hrun, He.
Qed.

End LifecycleClaims.

Section LifecycleAtSamples.
Import Task Protocol Samples MoreSamples.

(** C2, as the specification words it, fails: [except Exception] does
    not catch what does not derive from [Exception].  A body that exits
    the interpreter raises [SystemExit]; it leaves [__call__], [finish]
    is not run, and the stored document has neither a result nor a
    [completed] time stamp. *)
Lemma exit_fault_propagates :
  loaded fresh_task
  /\ exiting_body (started_document host_ok fresh_task) (self_work_dir fresh_task)
                  (shell fresh_task)
     = (Raise (mk_exn "SystemExit" false "1"), [])
  /\ (exists st',
        call host_ok exiting_body fresh_task
        = (Raise (mk_exn "SystemExit" false "1"), st')
        /\ (docs (database st') !! "job-1") ≫= doc_results = None
        /\ (docs (database st') !! "job-1") ≫= doc_completed = None)
  /\ ~ (forall (h : host) (run : body) (st : state) (e : exn) (tr' : trace),
          loaded st ->
          run (started_document h st) (self_work_dir st) (shell st) = (Raise e, tr') ->
          exists st', call h run st = (Ok tt, st')).
Proof.
  assert (loaded fresh_task) as Hl by reflexivity.
  pose proof (call_lets_exits_through host_ok exiting_body fresh_task _
                (mk_exn "SystemExit" false "1") []
                (start_loaded host_ok fresh_task Hl) eq_refl eq_refl) as Hcall.
  split; [exact Hl |]. split; [reflexivity |]. split.
  - eexists. split; [exact Hcall |]. split; reflexivity.
  - intros H. destruct (H host_ok exiting_body fresh_task _ _ Hl eq_refl) as [st' Hst'].
    rewrite Hcall in Hst'. discriminate Hst'.
Qed.

Lemma unhandled_fault_is_recorded_witness :
  loaded fresh_task
  /\ exists st' d,
       call host_ok Task.run fresh_task = (Ok tt, st')
       /\ docs (database st') !! "job-1" = Some d
       /\ doc_results d
          = Some {| success := false;
                    reason := Some "Unhandled exception in task: Task.run: Cannot call run method on base class";
                    code := None; errors := None; attachments := None;
                    attach_links := None |}
       /\ doc_completed d = Some 1000.
Proof.
  assert (loaded fresh_task) as Hl by reflexivity.
  split; [exact Hl |].
  destruct (unhandled_fault_is_recorded host_ok Task.run fresh_task
              (Exception "Task.run: Cannot call run method on base class") []
              Hl eq_refl eq_refl)
    as (st' & d & Hcall & _ & Hdoc & Hres & _ & _ & Hdone & _).
  exists st', d. repeat split; assumption.
Defined.

End LifecycleAtSamples.

(** * Further properties of [check_file] *)

Section CheckFileMore.
Import Py UnifiedDiff Chartest Samples.
#[local] Arguments Ascii.eqb : simpl never.

Lemma rstrip_prefix (s : string) : exists t, s = rstrip s +:+ t.
Proof.
  induction s as [|c s [t Ht]]; [by exists "" |].
  cbn [rstrip]. destruct (rstrip s) as [|c' r] eqn:E.
  - destruct (isspace c).
    + by exists (String c s).
    + exists s. by rewrite append_cons.
  - exists t. rewrite append_cons. by rewrite <- Ht.
Qed.

Lemma rstrip_same_length (s : string) :
  len s - len (rstrip s) = 0 <-> rstrip s = s.
Proof.
  split; [| by intros ->; lia].
  destruct (rstrip_prefix s) as [t Ht]. intros Hlen.
  assert (String.length t = 0%nat) as Ht0.
  { unfold len in Hlen. rewrite Ht in Hlen at 1. rewrite append_length in Hlen. lia. }
  destruct t; [| done]. by rewrite append_nil_r in Ht.
Qed.

Lemma rstrip_all_space (ws : string) : all_chars isspace ws = true -> rstrip ws = "".
Proof.
  induction ws as [|c ws IH]; [done |]. simpl.
  intros [Hc Hws]%andb_prop. by rewrite (IH Hws), Hc.
Qed.

Lemma rstrip_app_space (s ws : string) :
  all_chars isspace ws = true -> rstrip (s +:+ ws) = rstrip s.
Proof.
  intros Hws. induction s as [|c s IH].
  - rewrite append_nil_l. by apply rstrip_all_space.
  - rewrite append_cons. cbn [rstrip]. by rewrite IH.
Qed.

Lemma char_error_nil (n : Z) (line : string) (y : ascii) :
  char_error n line y = [] <-> count y line = 0.
Proof.
  unfold char_error. destruct (Z.eqb_spec (count y line) 0); split; done.
Qed.

Lemma flat_map_nil_iff {A B} (f : A -> list B) (l : list A) :
  flat_map f l = [] <-> Forall (fun x => f x = []) l.
Proof.
  induction l as [|x l IH]; simpl.
  - split; [constructor | done].
  - split.
    + intros [Hx Hl]%app_eq_nil. constructor; [done | by apply IH].
    + intros [Hx Hl]%Forall_cons. rewrite Hx. by apply IH.
Qed.

(** X1. An added line gets no message exactly when it has no trailing
    white space and none of the forbidden characters. *)
Theorem clean_line_no_violation (n : Z) (line : string) :
  line_errors (n, line) = []
  <-> rstrip line = line /\ forall y, y ∈ CRITICAL_CHARS -> count y line = 0.
Proof.
  unfold line_errors. cbn [fst snd].
  assert (trailing_errors n line = [] <-> rstrip line = line) as Ht.
  { rewrite <- rstrip_same_length. unfold trailing_errors.
    destruct (Z.eqb_spec (len line - len (rstrip line)) 0); split; done. }
  assert (char_errors n line = []
          <-> forall y, y ∈ CRITICAL_CHARS -> count y line = 0) as Hc.
  { unfold char_errors. rewrite flat_map_nil_iff, Forall_forall.
    split; intros H y Hy; [apply (char_error_nil n) | apply char_error_nil]; by apply H. }
  rewrite <- Ht, <- Hc. split.
  - by intros [? ?]%app_eq_nil.
  - by intros [-> ->].
Qed.

(** X2. A line made of a text without trailing white space and at
    least one white-space character behind it gets one trailing-whitespace
    message, which gives the number of those characters, says "char" for
    one and "chars" for more, and quotes the line number and the whole
    line. *)
Theorem trailing_whitespace_reported (n : Z) (text ws : string) :
  rstrip text = text -> all_chars isspace ws = true -> ws <> "" ->
  trailing_errors n (text +:+ ws)
  = [ str_of_Z (len ws) +:+ " trailing whitespace "
      +:+ (if len ws >? 1 then "chars" else "char")
      +:+ " on line " +:+ str_of_Z n +:+ " :  ' " +:+ (text +:+ ws) +:+ " '" ].
Proof.
  intros Htext Hws Hne. unfold trailing_errors.
  rewrite rstrip_app_space, Htext by done.
  assert (len (text +:+ ws) - len text = len ws) as ->.
  { unfold len. rewrite append_length. lia. }
  assert ((len ws =? 0) = false) as ->; [| done].
  apply Z.eqb_neq. unfold len. destruct ws; [done | simpl; lia].
Qed.

Lemma trailing_whitespace_reported_witness :
  rstrip "+bar" = "+bar" /\ all_chars isspace "  " = true
  /\ trailing_errors 20 "+bar  "
     = ["2 trailing whitespace chars on line 20 :  ' +bar   '"].
Proof.
  split; [reflexivity |]. split; [reflexivity |].
  apply (trailing_whitespace_reported 20 "+bar" "  "); [reflexivity | reflexivity | discriminate].
Defined.

(** The message for [y] on a line. *)
Lemma char_error_filter (n : Z) (line : string) (l : list ascii) :
  flat_map (char_error n line) l
  = flat_map (char_error n line) (filter (fun y => count y line <> 0) l).
Proof.
  induction l as [|y l IH]; [done |]. rewrite filter_cons. cbn [flat_map].
  destruct (decide (count y line <> 0)) as [Hy | Hy].
  - cbn [flat_map]. by rewrite IH.
  - assert (count y line = 0) as H0 by lia.
    apply (proj2 (char_error_nil n line y)) in H0. by rewrite H0, IH.
Qed.

(** X3. The forbidden-character messages of a line are one per
    forbidden character that occurs in it, in the order of the code
    points; no character is listed twice in [CRITICAL_CHARS]. *)
Theorem one_message_per_forbidden_char (n : Z) (line : string) :
  length (char_errors n line)
  = length (filter (fun y => count y line <> 0) CRITICAL_CHARS)
  /\ Forall2 (fun msg y =>
                exists rest,
                  msg = str_of_Z (count y line) +:+ " copies of char "
                        +:+ hex (ord y) +:+ rest)
             (char_errors n line)
             (filter (fun y => count y line <> 0) CRITICAL_CHARS)
  /\ NoDup CRITICAL_CHARS.
Proof.
  assert (forall l, Forall (fun y => count y line <> 0) l ->
            Forall2 (fun msg y =>
                       exists rest,
                         msg = str_of_Z (count y line) +:+ " copies of char "
                               +:+ hex (ord y) +:+ rest)
                    (flat_map (char_error n line) l) l) as Hall.
  { induction 1 as [|y l Hy _ IH]; [constructor |].
    cbn [flat_map]. unfold char_error at 1.
    destruct (Z.eqb_spec (count y line) 0) as [E | _]; [done |].
    cbn [app]. constructor; [| done].
    destruct (ord y =? 9)%N.
    - eexists. rewrite !append_assoc. reflexivity.
    - eexists. reflexivity. }
  assert (Forall2 (fun msg y =>
                     exists rest,
                       msg = str_of_Z (count y line) +:+ " copies of char "
                             +:+ hex (ord y) +:+ rest)
                  (char_errors n line)
                  (filter (fun y => count y line <> 0) CRITICAL_CHARS)) as H2.
  { unfold char_errors. rewrite char_error_filter. apply Hall.
    apply Forall_forall. by intros y [Hy _]%list_elem_of_filter. }
  split; [by eapply Forall2_length | split; [done |]].
  by apply (bool_decide_unpack _).
Qed.

(** [cons_first] on lines without line breaks. *)
Lemma cons_first_one_line (c : ascii) (ls : list string) :
  other_than LF c = true -> other_than CR c = true ->
  Forall (fun l => one_line l = true) ls ->
  Forall (fun l => one_line l = true) (cons_first c ls).
Proof.
  intros Hlf Hcr Hls. destruct Hls as [|l ls Hl Hls]; cbn [cons_first].
  - constructor; [| constructor]. unfold one_line. simpl. by rewrite Hlf, Hcr.
  - constructor; [| done]. unfold one_line in *. simpl. by rewrite Hlf, Hcr, Hl.
Qed.

Lemma splitlines_one_line_bounded (k : nat) (s : string) :
  (String.length s <= k)%nat -> Forall (fun l => one_line l = true) (splitlines s).
Proof.
  revert s. induction k as [|k IH]; intros s Hk.
  - destruct s; [constructor | simpl in Hk; lia].
  - destruct s as [|c s]; [constructor |]. simpl in Hk. cbn [splitlines].
    destruct (Ascii.eqb c LF) eqn:Elf.
    { constructor; [done | apply IH; lia]. }
    destruct (Ascii.eqb c CR) eqn:Ecr.
    { destruct s as [|c' s]; [by repeat constructor |].
      simpl in Hk. destruct (Ascii.eqb c' LF); (constructor; [done |]);
        apply IH; simpl; lia. }
    apply cons_first_one_line; [unfold other_than; by rewrite Elf
                               | unfold other_than; by rewrite Ecr
                               | apply IH; lia].
Qed.

Lemma one_line_count (line : string) (c0 : ascii) :
  all_chars (other_than c0) line = true -> count c0 line = 0.
Proof.
  induction line as [|c line IH]; [done |]. simpl.
  intros [Hc Hl]%andb_prop. unfold other_than in Hc.
  apply negb_true_iff in Hc. rewrite Hc, (IH Hl). reflexivity.
Qed.

(** X4. No line that [check_file] looks at holds a carriage return or
    a line feed: [splitlines] takes both away as line breaks.  So the
    entry 0x0d of [CRITICAL_CHARS] never produces a message, and the
    "\r" of a CRLF line ending is not counted as trailing white space. *)
Theorem carriage_return_never_reported (diff : string) (n : Z) (line : string) :
  line ∈ splitlines diff ->
  count CR line = 0 /\ count LF line = 0 /\ char_error n line CR = [].
Proof.
  intros Hin.
  pose proof (splitlines_one_line_bounded _ diff (le_n _)) as Hall.
  rewrite Forall_forall in Hall. apply Hall in Hin. unfold one_line in Hin.
  assert (count CR line = 0) as Hcr.
  { apply one_line_count. eapply all_chars_impl; [| exact Hin].
    by intros c [_ ?]%andb_prop. }
  assert (count LF line = 0) as Hlf.
  { apply one_line_count. eapply all_chars_impl; [| exact Hin].
    by intros c [? _]%andb_prop. }
  split; [done |]. split; [done |]. by apply char_error_nil.
Qed.

Lemma carriage_return_never_reported_witness :
  "+foo" ∈ splitlines ("+foo" +:+ String CR (String LF "+bar"))
  /\ count CR "+foo" = 0 /\ char_error 1 "+foo" CR = [].
Proof.
  assert ("+foo" ∈ splitlines ("+foo" +:+ String CR (String LF "+bar"))) as Hin
    by (apply elem_of_cons; by left).
  split; [exact Hin |].
  destruct (carriage_return_never_reported _ 1 _ Hin) as (Hcr & _ & Herr).
  split; [exact Hcr | exact Herr].
Defined.




(** X6. Without a hunk header in front of them, added lines are counted
    from the sentinel: -999, -998, and so on. *)
Theorem headerless_lines_count_from_sentinel (lines : list string) :
  Forall (fun l => startswith "@@" l = false) lines ->
  added_lines SENTINEL lines
  = number_from (-999) (filter (fun l => is_added l = true) lines).
Proof.
  change (-999) with SENTINEL. generalize SENTINEL as n.
  intros n H. revert n. induction H as [|l ls Hl _ IH]; intros n; [done |].
  cbn [added_lines]. rewrite reseed_other by done. rewrite filter_cons.
  destruct (is_added l) eqn:E.
  - rewrite decide_True by done. cbn [number_from]. by rewrite IH.
  - rewrite decide_False by done. apply IH.
Qed.

Lemma headerless_lines_count_from_sentinel_witness :
  Forall (fun l => startswith "@@" l = false) ["+a"; " b"; "+c"]
  /\ added_lines SENTINEL ["+a"; " b"; "+c"] = [(-999, "+a"); (-998, "+c")].
Proof.
  assert (Forall (fun l => startswith "@@" l = false) ["+a"; " b"; "+c"]) as H
    by (repeat constructor).
  split; [exact H |].
  by rewrite (headerless_lines_count_from_sentinel _ H).
Defined.

End CheckFileMore.

(** * Further properties of [check_changed_files] and [CharCheck.run] *)

Section RunMore.
Import Task Chartest Samples MoreSamples.

(** X7. When [git diff --name-only] lists no file twice,
    [check_changed_files] returns [True] exactly when every violation list
    of the mapping it returns is empty, and the keys of the mapping are
    the listed files that end in one of [CODE_EXTS]. *)
Theorem changed_files_report (h : host) (sha repo_dir : value) (tr tr1 tr' : trace)
    (files : list string) (s : bool) (e : gmap string (list string)) :
  get_changed_files h sha repo_dir tr = (Ok files, tr1) ->
  NoDup files ->
  check_changed_files h sha repo_dir tr = (Ok (s, e), tr') ->
  (s = true <-> map_Forall (fun _ v => v = []) e)
  /\ (forall f, is_Some (e !! f)
                <-> f ∈ files /\ existsb (fun ext => Py.endswith ext f) CODE_EXTS = true).
Proof.
  intros Hfiles Hnd Hcheck.
  split; [by eapply check_changed_files_success |].
  revert Hcheck. unfold check_changed_files.
  rewrite (bind_ok _ _ _ _ _ Hfiles).
  intros (_ & Hout & Hin & _)%check_each_spec. intros f.
  set (code_files := filter _ files) in *.
  assert (f ∈ code_files
          <-> f ∈ files /\ existsb (fun ext => Py.endswith ext f) CODE_EXTS = true)
    as <-.
  { unfold code_files. rewrite list_elem_of_filter. tauto. }
  split; [| apply Hin].
  intros Hf. destruct (decide (f ∈ code_files)) as [Hm | Hm]; [done |].
  rewrite (Hout f Hm), lookup_empty in Hf. by destruct Hf.
Qed.

Lemma changed_files_report_witness :
  fst (get_changed_files host_two_files (VStr "abc123") (VStr "/w/master") [])
  = Ok ["x.c"; "README.md"]
  /\ exists e,
       fst (check_changed_files host_two_files (VStr "abc123") (VStr "/w/master") [])
       = Ok (true, e)
       /\ is_Some (e !! "x.c") /\ e !! "README.md" = None.
Proof.
  split; [reflexivity |].
  destruct (check_changed_files host_two_files (VStr "abc123") (VStr "/w/master") [])
    as [[[s e]|err] tr'] eqn:E; [| by vm_compute in E].
  assert (s = true) as -> by (vm_compute in E; congruence).
  exists e. split; [reflexivity |].
  assert (NoDup ["x.c"; "README.md"]) as Hnd by (by apply (bool_decide_unpack _)).
  destruct (changed_files_report host_two_files (VStr "abc123") (VStr "/w/master")
              [] _ tr' ["x.c"; "README.md"] true e eq_refl Hnd E) as [_ Hkeys].
  split.
  - apply Hkeys. split; [apply elem_of_cons; by left | reflexivity].
  - destruct (e !! "README.md") eqn:Er; [| done].
    assert (is_Some (e !! "README.md")) as Hs by (by rewrite Er).
    apply Hkeys in Hs as [_ Hs]. by vm_compute in Hs.
Defined.

(** X8. When none of the changed files ends in a code extension,
    [check_changed_files] returns [True] and an empty mapping, and takes no
    diff: the command that listed the files is the last one it ran. *)
Theorem no_code_files_no_diff (h : host) (sha repo_dir : value) (tr tr1 : trace)
    (files : list string) :
  get_changed_files h sha repo_dir tr = (Ok files, tr1) ->
  Forall (fun f => existsb (fun ext => Py.endswith ext f) CODE_EXTS = false) files ->
  check_changed_files h sha repo_dir tr = (Ok (true, ∅), tr1).
Proof.
  intros Hfiles Hall. unfold check_changed_files.
  rewrite (bind_ok _ _ _ _ _ Hfiles).
  assert (filter (fun file => existsb (fun ext => Py.endswith ext file) CODE_EXTS = true)
            files = []) as ->; [| done].
  clear Hfiles. induction Hall as [|f fs Hf _ IH]; [done |].
  rewrite filter_cons_False; [exact IH | by rewrite Hf].
Qed.

Lemma no_code_files_no_diff_witness :
  fst (get_changed_files host_docs_only (VStr "abc123") (VStr "/w/master") [])
  = Ok ["README.md"; "doc/notes.txt"]
  /\ Forall (fun f => existsb (fun ext => Py.endswith ext f) CODE_EXTS = false)
            ["README.md"; "doc/notes.txt"]
  /\ check_changed_files host_docs_only (VStr "abc123") (VStr "/w/master") []
     = (Ok (true, ∅), [CheckOutput "cd /w/master && git diff --name-only ...abc123"]).
Proof.
  assert (Forall (fun f => existsb (fun ext => Py.endswith ext f) CODE_EXTS = false)
                 ["README.md"; "doc/notes.txt"]) as H.
  { constructor; [reflexivity |]. constructor; [reflexivity |]. constructor. }
  split; [reflexivity |]. split; [exact H |].
  by rewrite (no_code_files_no_diff host_docs_only (VStr "abc123") (VStr "/w/master")
                [] [CheckOutput "cd /w/master && git diff --name-only ...abc123"]
                ["README.md"; "doc/notes.txt"] eq_refl H).
Defined.

Section WithHost.
Context (h : host).

(** X9. Whatever [CharCheck.run] returns is a short-circuit failure:
    [success] is [False], a reason is given, and there is no violation
    mapping and no attachment.  (Past a usable clone and fetch the method
    raises instead of returning.) *)
Theorem run_never_reports (doc : document) (wd : string) (tr tr' : trace)
    (r : results) :
  Chartest.run h doc wd tr = (Ok r, tr') ->
  success r = false /\ errors r = None /\ attachments r = None
  /\ (reason r = Some "missing revision id" \/ reason r = Some "missing git url"
      \/ reason r = Some "incomplete base specification for merge"
      \/ reason r = Some "git clone failed").
Proof.
  unfold Chartest.run.
  destruct (validate _ _ _ _) as [r0|] eqn:Hv.
  - intros [= <- <-]. unfold validate in Hv.
    repeat (destruct (_ : bool) in Hv; [injection Hv as <-; simpl; by intuition |]). done.
  - unfold clone_and_check. step_bind.
    destruct (unusable _); [intros [= <- <-]; simpl; by intuition |].
    unfold fetch_and_check. step_bind. step_bind.
    destruct (unusable _); [intros [= <- <-]; simpl; by intuition |].
    unfold check_and_report. step_bind.
    match goal with |- context [let '(_, _) := ?p in _] => destruct p as [ok errs] end.
    step_bind. unfold bind, load_name.
    rewrite lookup_singleton_ne by done. done.
Qed.

(** X10. A job with a revision id but without 'git_url' gets
    [{success: False, reason: 'missing git url'}], and nothing is run. *)
Theorem missing_git_url_short_circuits (doc : document) (wd : string) (tr : trace)
    (sha : value) :
  default ∅ (doc_kwargs doc) !! "sha" = Some sha -> sha <> VNone ->
  default ∅ (doc_kwargs doc) !! "git_url" = None ->
  Chartest.run h doc wd tr
  = (Ok {| success := false; reason := Some "missing git url"; code := None;
           errors := None; attachments := None; attach_links := None |},
     tr).
Proof.
  intros Hsha Hs Hurl. unfold Chartest.run. rewrite Hsha, Hurl. simpl.
  unfold validate. by destruct sha.
Qed.

(** X11. A job that names only one of 'base_repo_url' and
    'base_repo_ref' (a non-empty string for the one, nothing for the other)
    gets [{success: False, reason: 'incomplete base specification for
    merge'}], and nothing is run. *)
Theorem incomplete_base_short_circuits (doc : document) (wd : string) (tr : trace)
    (sha git_url : value) (given : string) :
  default ∅ (doc_kwargs doc) !! "sha" = Some sha -> sha <> VNone ->
  default ∅ (doc_kwargs doc) !! "git_url" = Some git_url -> git_url <> VNone ->
  given <> "" ->
  (default ∅ (doc_kwargs doc) !! "base_repo_url" = Some (VStr given)
   /\ default ∅ (doc_kwargs doc) !! "base_repo_ref" = None)
  \/ (default ∅ (doc_kwargs doc) !! "base_repo_ref" = Some (VStr given)
      /\ default ∅ (doc_kwargs doc) !! "base_repo_url" = None) ->
  Chartest.run h doc wd tr
  = (Ok {| success := false;
           reason := Some "incomplete base specification for merge"; code := None;
           errors := None; attachments := None; attach_links := None |},
     tr).
Proof.
  intros Hsha Hs Hurl Hu Hgiven Hbase. unfold Chartest.run. rewrite Hsha, Hurl.
  assert (negb (String.eqb given "") = true) as Ht.
  { apply negb_true_iff, String.eqb_neq. done. }
  destruct Hbase as [[-> ->] | [-> ->]]; simpl; unfold validate; simpl; rewrite Ht;
    destruct sha; try done; destruct git_url; done.
Qed.

(** X12. When the clone is usable and the fetch returns anything but 0
    or 1, [run] stops with the reason 'git clone failed' (the same words
    as for the clone) and the fetch's code as a string, in the state the
    fetch left: no file is listed or compared. *)
Theorem fetch_failure_short_circuits (doc : document) (wd : string)
    (tr tr1 tr2 : trace) (clone_code : option Z) (ref joined : string)
    (fetch_code : Z) :
  let kwargs := default ∅ (doc_kwargs doc) in
  let sha := default VNone (kwargs !! "sha") in
  let git_url := default VNone (kwargs !! "git_url") in
  let base_repo_url := default VNone (kwargs !! "base_repo_url") in
  kwargs !! "base_repo_ref" = Some (VStr ref) ->
  validate sha git_url (VStr ref) base_repo_url = None ->
  git_clone h base_repo_url (VStr ref) (VStr ref) wd tr = (Ok clone_code, tr1) ->
  unusable clone_code = false ->
  os_path_join wd (VStr ref) = Ok joined ->
  git_fetch h git_url (if negb (String.eqb wd "") then VStr joined else VStr ref) tr1
  = (Ok fetch_code, tr2) ->
  fetch_code <> 0 -> fetch_code <> 1 ->
  Chartest.run h doc wd tr
  = (Ok {| success := false; reason := Some "git clone failed";
           code := Some (Py.str_of_Z fetch_code);
           errors := None; attachments := None; attach_links := None |},
     tr2).
Proof.
  intros kwargs sha git_url base_repo_url Href Hvalid Hclone Huse Hjoin Hfetch H0 H1.
  subst kwargs sha git_url base_repo_url.
  unfold Chartest.run. rewrite Href.
  change (default VNone (Some (VStr ref))) with (VStr ref). rewrite Hvalid.
  unfold clone_and_check. rewrite (bind_ok _ _ _ _ _ Hclone), Huse.
  unfold fetch_and_check.
  assert ((if negb (String.eqb wd "")
           then bind (lift_outcome (os_path_join wd (VStr ref)))
                     (fun d => ret (VStr d))
           else ret (VStr ref)) tr1
          = (Ok (if negb (String.eqb wd "") then VStr joined else VStr ref), tr1))
    as Hdir.
  { destruct (negb (String.eqb wd "")); [| done].
    unfold bind, lift_outcome. by rewrite Hjoin. }
  rewrite (bind_ok _ _ _ _ _ Hdir), (bind_ok _ _ _ _ _ Hfetch).
  assert (unusable (Some fetch_code) = true) as ->; [| done].
  simpl. destruct (Z.eqb_spec fetch_code 0); [done |].
  by destruct (Z.eqb_spec fetch_code 1).
Qed.

(** X13. When the directory the clone would go to is already there,
    [git_clone] runs no command and returns [None], and [CharCheck.run]
    ends with the reason 'git clone failed' and the code "None". *)
Theorem existing_target_fails (doc : document) (wd : string) (tr : trace)
    (ref joined : string) :
  let kwargs := default ∅ (doc_kwargs doc) in
  let sha := default VNone (kwargs !! "sha") in
  let git_url := default VNone (kwargs !! "git_url") in
  let base_repo_url := default VNone (kwargs !! "base_repo_url") in
  kwargs !! "base_repo_ref" = Some (VStr ref) ->
  validate sha git_url (VStr ref) base_repo_url = None ->
  os_path_join wd (VStr ref) = Ok joined ->
  path_exists h tr (abspath_of h (if negb (String.eqb wd "") then joined else ref))
  = true ->
  git_clone h base_repo_url (VStr ref) (VStr ref) wd tr = (Ok None, tr)
  /\ Chartest.run h doc wd tr
     = (Ok {| success := false; reason := Some "git clone failed";
              code := Some "None";
              errors := None; attachments := None; attach_links := None |},
        tr).
Proof.
  intros kwargs sha git_url base_repo_url Href Hvalid Hjoin Hexists.
  subst kwargs sha git_url base_repo_url.
  assert (git_clone h (default VNone (default ∅ (doc_kwargs doc) !! "base_repo_url"))
            (VStr ref) (VStr ref) wd tr = (Ok None, tr)) as Hclone.
  { unfold git_clone, bind, lift_outcome, ret. cbn [is_None].
    destruct (negb (String.eqb wd "")).
    - rewrite Hjoin. cbn [os_path_abspath]. by rewrite Hexists.
    - cbn [os_path_abspath]. by rewrite Hexists. }
  split; [exact Hclone |].
  unfold Chartest.run. rewrite Href.
  change (default VNone (Some (VStr ref))) with (VStr ref). rewrite Hvalid.
  unfold clone_and_check. by rewrite (bind_ok _ _ _ _ _ Hclone).
Qed.

(** The words [system] puts in front of a command. *)
Lemma system_call (cmd : string) (work_dir : value) (tr : trace) :
  system h cmd work_dir tr
  = (run_call h tr ((if truthy work_dir then "cd " +:+ str work_dir +:+ " && " else "")
                    +:+ cmd),
     (tr ++ [Call ((if truthy work_dir then "cd " +:+ str work_dir +:+ " && " else "")
                   +:+ cmd)])%list).
Proof.
  unfold system, subprocess_call. destruct (truthy work_dir); [| done].
  by rewrite !append_assoc.
Qed.

(** X14. [git_fetch] and [git_merge] run [git remote add fork <url>]
    and then the fetch (the pull), both in the given directory; the exit
    code of the first command is ignored, the result is what the second
    command gives. *)
Theorem remote_add_code_ignored (url ref : string) (dir : value) (tr : trace)
    (add_code : Z) :
  let cd := if truthy dir then "cd " +:+ str dir +:+ " && " else "" in
  let add := cd +:+ "git remote add fork " +:+ url in
  run_call h tr add = Ok add_code ->
  git_fetch h (VStr url) dir tr
  = (run_call h (tr ++ [Call add])%list (cd +:+ "git fetch fork"),
     (tr ++ [Call add; Call (cd +:+ "git fetch fork")])%list)
  /\ Build.git_merge h (VStr url) (VStr ref) dir tr
     = (run_call h (tr ++ [Call add])%list
                 (cd +:+ "git pull fork " +:+ ref +:+ " &> /dev/null"),
        (tr ++ [Call add;
                Call (cd +:+ "git pull fork " +:+ ref +:+ " &> /dev/null")])%list).
Proof.
  intros cd add Hadd.
  assert (system h ("git remote add fork " +:+ url) dir tr
          = (Ok add_code, (tr ++ [Call add])%list)) as Hfirst.
  { rewrite system_call. fold cd. fold add. by rewrite Hadd. }
  split.
  - unfold git_fetch. cbn [space_join join_items Py.join lift_outcome].
    unfold bind at 1. cbn [lift_outcome]. rewrite (bind_ok _ _ _ _ _ Hfirst).
    rewrite system_call. fold cd. by rewrite <- app_assoc.
  - unfold Build.git_merge. cbn [space_join join_items Py.join lift_outcome].
    unfold bind at 1. cbn [lift_outcome]. rewrite (bind_ok _ _ _ _ _ Hfirst).
    unfold bind at 1. cbn [lift_outcome].
    rewrite system_call. fold cd. by rewrite <- app_assoc.
Qed.

(** X15. For a file that is not in the working tree, [get_diff] first
    runs [git checkout <sha> <file>] in the repository, ignores its exit
    code, and then takes the same [git diff -U0 ...<sha> <file>] as for a
    file that is there. *)
Theorem get_diff_checks_out_missing_file (file : string) (sha dir : value)
    (tr : trace) (checkout_code : Z) :
  let cd := if truthy dir then "cd " +:+ str dir +:+ " && " else "" in
  let checkout := cd +:+ "git checkout " +:+ str sha +:+ " " +:+ file in
  let diff := cd +:+ "git diff -U0 ..." +:+ str sha +:+ " " +:+ file in
  run_call h tr checkout = Ok checkout_code ->
  get_diff h file sha dir tr
  = if path_isfile h tr file
    then (run_check_output h tr diff, (tr ++ [CheckOutput diff])%list)
    else (run_check_output h (tr ++ [Call checkout])%list diff,
          (tr ++ [Call checkout; CheckOutput diff])%list).
Proof.
  intros cd checkout diff Hco.
  assert (forall t, system_output h ("git diff -U0 ..." +:+ str sha +:+ " " +:+ file) dir t
                    = (run_check_output h t diff, (t ++ [CheckOutput diff])%list))
    as Hdiff.
  { intros t. unfold system_output, subprocess_check_output, diff, cd.
    destruct (truthy dir); [| done]. by rewrite !append_assoc. }
  unfold get_diff. destruct (path_isfile h tr file); [apply Hdiff |].
  assert (system h ("git checkout " +:+ str sha +:+ " " +:+ file) dir tr
          = (Ok checkout_code, (tr ++ [Call checkout])%list)) as Hfirst.
  { rewrite system_call. fold cd. fold checkout. by rewrite Hco. }
  rewrite (bind_ok _ _ _ _ _ Hfirst), Hdiff. by rewrite <- app_assoc.
Qed.

End WithHost.

Lemma run_never_reports_witness :
  exists r,
    fst (Chartest.run host_clone_fails (job kwargs_full) "/tmp/tmpXYZ" []) = Ok r
    /\ success r = false /\ reason r = Some "git clone failed".
Proof.
  assert (Chartest.run host_clone_fails (job kwargs_full) "/tmp/tmpXYZ" []
          = (Ok (failure "git clone failed" (Some "2")),
             snd (Chartest.run host_clone_fails (job kwargs_full) "/tmp/tmpXYZ" [])))
    as E by reflexivity.
  exists (failure "git clone failed" (Some "2")).
  split; [reflexivity |].
  destruct (run_never_reports host_clone_fails _ _ _ _ _ E) as (Hs & _).
  split; [exact Hs | reflexivity].
Defined.

Lemma missing_git_url_short_circuits_witness :
  default ∅ (doc_kwargs (job kwargs_no_url)) !! "git_url" = None
  /\ Chartest.run host_ok (job kwargs_no_url) "/tmp/tmpXYZ" []
     = (Ok (failure "missing git url" None), []).
Proof.
  split; [reflexivity |].
  apply (missing_git_url_short_circuits host_ok (job kwargs_no_url) "/tmp/tmpXYZ" []
           (VStr "abc123")); reflexivity || discriminate.
Defined.

Lemma incomplete_base_short_circuits_witness :
  default ∅ (doc_kwargs (job kwargs_half_base)) !! "base_repo_ref" = None
  /\ Chartest.run host_ok (job kwargs_half_base) "/tmp/tmpXYZ" []
     = (Ok (failure "incomplete base specification for merge" None), []).
Proof.
  split; [reflexivity |].
  apply (incomplete_base_short_circuits host_ok (job kwargs_half_base) "/tmp/tmpXYZ" []
           (VStr "abc123") (VStr "git://fork/repo.git") "git://base/repo.git");
    try reflexivity; try discriminate.
  left. split; reflexivity.
Defined.

Lemma fetch_failure_short_circuits_witness :
  fst (git_fetch host_fetch_fails (VStr "git://fork/repo.git")
         (VStr "/tmp/tmpXYZ/master")
         (snd (git_clone host_fetch_fails (VStr "git://base/repo.git") (VStr "master")
                 (VStr "master") "/tmp/tmpXYZ" [])))
  = Ok 128
  /\ fst (Chartest.run host_fetch_fails (job kwargs_full) "/tmp/tmpXYZ" [])
     = Ok (failure "git clone failed" (Some "128")).
Proof.
  split; [reflexivity |].
  rewrite (fetch_failure_short_circuits host_fetch_fails (job kwargs_full)
             "/tmp/tmpXYZ" []
             (snd (git_clone host_fetch_fails (VStr "git://base/repo.git")
                     (VStr "master") (VStr "master") "/tmp/tmpXYZ" []))
             (snd (git_fetch host_fetch_fails (VStr "git://fork/repo.git")
                     (VStr "/tmp/tmpXYZ/master")
                     (snd (git_clone host_fetch_fails (VStr "git://base/repo.git")
                             (VStr "master") (VStr "master") "/tmp/tmpXYZ" []))))
             (Some 0) "master" "/tmp/tmpXYZ/master" 128);
    reflexivity || discriminate.
Defined.

Lemma existing_target_fails_witness :
  path_exists host_target_exists [] (abspath_of host_target_exists "/tmp/tmpXYZ/master")
  = true
  /\ Chartest.run host_target_exists (job kwargs_full) "/tmp/tmpXYZ" []
     = (Ok (failure "git clone failed" (Some "None")), []).
Proof.
  split; [reflexivity |].
  apply (existing_target_fails host_target_exists (job kwargs_full) "/tmp/tmpXYZ" []
           "master" "/tmp/tmpXYZ/master"); reflexivity.
Defined.

Lemma remote_add_code_ignored_witness :
  run_call host_fetch_fails [] "cd /r && git remote add fork git://fork/repo.git" = Ok 3
  /\ fst (git_fetch host_fetch_fails (VStr "git://fork/repo.git") (VStr "/r") [])
     = Ok 128
  /\ fst (Build.git_merge host_fetch_fails (VStr "git://fork/repo.git") (VStr "topic")
            (VStr "/r") [])
     = Ok 0.
Proof.
  split; [reflexivity |].
  destruct (remote_add_code_ignored host_fetch_fails "git://fork/repo.git" "topic"
              (VStr "/r") [] 3 eq_refl) as [Hf Hm].
  split; [by rewrite Hf | by rewrite Hm].
Defined.

Lemma get_diff_checks_out_missing_file_witness :
  path_isfile host_fetch_fails [] "new.c" = false
  /\ snd (get_diff host_fetch_fails "new.c" (VStr "abc123") (VStr "/r") [])
     = [Call "cd /r && git checkout abc123 new.c";
        CheckOutput "cd /r && git diff -U0 ...abc123 new.c"].
Proof.
  split; [reflexivity |].
  by rewrite (get_diff_checks_out_missing_file host_fetch_fails "new.c" (VStr "abc123")
                (VStr "/r") [] 0 eq_refl).
Defined.

End RunMore.

(** * Further properties of the task life cycle *)

Section LifecycleMore.
Import Task Protocol Stored Samples MoreSamples.
Context (h : host).

Lemma put_attachment_loaded (a : attachment) (st : state) :
  loaded st ->
  exists st',
    put_attachment a st = (Ok tt, st')
    /\ loaded st'
    /\ self_document st' = set_rev (doc_rev (self_document st) + 1) (self_document st)
    /\ shell st' = shell st
    /\ blobs (database st')
       = <[(doc_id (self_document st), filename a) := contents a]> (blobs (database st)).
Proof.
  unfold loaded. intros Hl.
  unfold put_attachment, store_put_attachment. rewrite Hl, N.eqb_refl.
  eexists. split; [reflexivity |]. cbn.
  split; [by rewrite lookup_insert_eq |]. done.
Qed.

Lemma put_attachments_loaded (atts : list attachment) (st : state) :
  loaded st ->
  exists st',
    for_each atts put_attachment st = (Ok tt, st')
    /\ loaded st'
    /\ self_document st'
       = set_rev (doc_rev (self_document st) + N.of_nat (length atts)) (self_document st)
    /\ shell st' = shell st
    /\ blobs (database st')
       = attach_all (doc_id (self_document st)) atts (blobs (database st)).
Proof.
  revert st. induction atts as [|a atts IH]; intros st Hl.
  - exists st. split; [done |]. split; [done |].
    split; [| done]. destruct (self_document st). unfold set_rev. cbn. f_equal. lia.
  - destruct (put_attachment_loaded a st Hl) as (st1 & Hput & Hl1 & Hdoc1 & Hsh1 & Hb1).
    destruct (IH st1 Hl1) as (st' & Hrest & Hl' & Hdoc' & Hsh' & Hb').
    exists st'. cbn [for_each]. rewrite (bind_ok _ _ _ _ _ Hput).
    split; [done |]. split; [done |].
    rewrite Hdoc', Hsh', Hb', Hdoc1, Hsh1, Hb1.
    split; [| done]. unfold set_rev. cbn. f_equal. lia.
Qed.

(** [finish], for a task that holds the stored version of its document. *)
Lemma finish_loaded (r : results) (st : state) :
  loaded st ->
  exists st' d,
    finish h r st = (Ok tt, st')
    /\ shell st' = shell st
    /\ docs (database st') !! doc_id (self_document st) = Some d
    /\ doc_results d = Some (stored_form r)
    /\ doc_completed d = Some (time_time h (shell st))
    /\ doc_kwargs d = doc_kwargs (self_document st)
    /\ doc_started d = doc_started (self_document st)
    /\ doc_node d = doc_node (self_document st)
    /\ doc_id d = doc_id (self_document st)
    /\ blobs (database st')
       = attach_all (doc_id (self_document st)) (default [] (attachments r))
                    (blobs (database st)).
Proof.
  intros Hl. unfold finish, stored_form.
  destruct (attachments r) as [atts|] eqn:Hatts.
  - destruct (put_attachments_loaded atts st Hl) as (st1 & Hput & Hl1 & Hdoc1 & Hsh1 & Hb1).
    rewrite (bind_ok _ _ _ _ _ Hput).
    unfold loaded in Hl1.
    unfold bind, reload_document, update_document, save_document, store_get, store_save.
    cbn. rewrite Hl1. cbn. rewrite Hl1, N.eqb_refl. cbn.
    rewrite lookup_insert_eq. cbn. rewrite lookup_insert_eq, N.eqb_refl. cbn.
    eexists _, _. split; [reflexivity |]. cbn. rewrite Hdoc1, Hsh1, Hb1. cbn.
    split; [done |]. split; [by rewrite lookup_insert_eq |]. done.
  - unfold loaded in Hl.
    unfold bind, update_document, save_document, store_save. cbn.
    rewrite Hl, N.eqb_refl. cbn.
    eexists _, _. split; [reflexivity |]. cbn.
    split; [done |]. split; [by rewrite lookup_insert_eq |]. done.
Qed.

Lemma attach_all_lookup (id : string) (atts : list attachment)
    (b : gmap (string * string) string) (a : attachment) :
  NoDup (map filename atts) -> a ∈ atts ->
  attach_all id atts b !! (id, filename a) = Some (contents a).
Proof.
  unfold attach_all. revert b. induction atts as [|x atts IH]; intros b Hnd Ha.
  - by apply elem_of_nil in Ha.
  - cbn [map] in Hnd. apply NoDup_cons in Hnd as [Hx Hnd]. cbn [fold_left].
    apply elem_of_cons in Ha as [-> | Ha]; [| by apply IH].
    clear IH. revert b. induction atts as [|y atts IH]; intros b.
    + apply lookup_insert_eq.
    + cbn [fold_left]. cbn [map] in Hx, Hnd.
      apply not_elem_of_cons in Hx as [Hxy Hx]. apply NoDup_cons in Hnd as [_ Hnd].
      rewrite insert_insert_ne by congruence. by apply IH.
Qed.

(** X16. [finish] on a result with attachments uploads every attachment
    to the store under its file name, and stores the result without the
    'attachments' key, with a completion time.  The document keeps its id,
    kwargs, start time and node. *)
Theorem finish_publishes_attachments (r : results) (atts : list attachment)
    (st : state) :
  attachments r = Some atts -> loaded st -> NoDup (map filename atts) ->
  exists st' d,
    finish h r st = (Ok tt, st')
    /\ docs (database st') !! doc_id (self_document st) = Some d
    /\ (forall a, a ∈ atts ->
          blobs (database st') !! (doc_id (self_document st), filename a)
          = Some (contents a))
    /\ (exists stored, doc_results d = Some stored
                       /\ attachments stored = None
                       /\ success stored = success r
                       /\ errors stored = errors r)
    /\ doc_completed d = Some (time_time h (shell st))
    /\ doc_kwargs d = doc_kwargs (self_document st)
    /\ doc_started d = doc_started (self_document st).
Proof.
  intros Hatts Hl Hnd.
  destruct (finish_loaded r st Hl)
    as (st' & d & Hfin & _ & Hdoc & Hres & Hdone & Hkw & Hst & _ & _ & Hb).
  exists st', d. split; [done |]. split; [done |]. split.
  { intros a Ha. rewrite Hb, Hatts. by apply attach_all_lookup. }
  split; [| done].
  exists (stored_form r). unfold stored_form in *. rewrite Hatts in *. done.
Qed.

(** X17. When the task body returns a result, [__call__] leaves the
    job document in the store started, completed and carrying that result
    (without its 'attachments' key), with its kwargs as they were. *)
Theorem call_records_result (run : body) (st : state) (r : results) (tr' : trace) :
  loaded st ->
  run (started_document h st) (self_work_dir st) (shell st) = (Ok r, tr') ->
  exists st' d,
    call h run st = (Ok tt, st')
    /\ shell st' = tr'
    /\ docs (database st') !! doc_id (self_document st) = Some d
    /\ doc_results d = Some (stored_form r)
    /\ doc_started d = Some (time_time h (shell st))
    /\ doc_node d = Some (getfqdn h)
    /\ doc_completed d = Some (time_time h tr')
    /\ doc_kwargs d = doc_kwargs (self_document st).
Proof.
  intros Hl Hrun.
  unfold call. rewrite (bind_ok _ _ _ _ _ (start_loaded h st Hl)).
  set (st1 := with_document _ _).
  assert (loaded (with_shell tr' st1)) as Hl1.
  { unfold loaded, st1. cbn. by rewrite lookup_insert_eq. }
  destruct (finish_loaded r (with_shell tr' st1) Hl1)
    as (st' & d & Hfin & Hsh & Hdoc & Hres & Hdone & Hkw & Hst & Hnode & _).
  exists st', d. split.
  { erewrite bind_ok; [exact Hfin |].
    unfold in_shell. subst st1. cbn. by rewrite Hrun. }
  split; [by rewrite Hsh |]. split; [exact Hdoc |]. split; [exact Hres |].
  rewrite Hst, Hnode, Hdone, Hkw. done.
Qed.

(** X18. When the task body raises something that does not derive from
    [Exception] ([SystemExit], [KeyboardInterrupt]), [__call__] lets it
    through: [finish] is not run, and the stored document is the one
    [start] wrote, with no result and no completion time added. *)
Theorem exit_leaves_document_unfinished (run : body) (st : state) (e : exn)
    (tr' : trace) :
  loaded st ->
  run (started_document h st) (self_work_dir st) (shell st) = (Raise e, tr') ->
  exc_is_Exception e = false ->
  exists st',
    call h run st = (Raise e, st')
    /\ shell st' = tr'
    /\ docs (database st') !! doc_id (self_document st) = Some (started_document h st)
    /\ doc_results (started_document h st) = doc_results (self_document st)
    /\ doc_completed (started_document h st) = doc_completed (self_document st).
Proof.
  intros Hl Hrun He.
  eexists. split.
  { eapply (call_lets_exits_through h run st _ e tr' (start_loaded h st Hl)); [| done].
    exact Hrun. }
  cbn. split; [done |]. split; [by rewrite lookup_insert_eq |]. done.
Qed.

(** X19. [start] on a freshly loaded task writes the start time and the
    node name to the store, advances the version token by one, leaves
    kwargs, results and completion time alone, runs no command, and leaves
    the task holding the stored version again. *)
Theorem start_marks_document (st : state) :
  loaded st ->
  exists st1,
    start h st = (Ok tt, st1)
    /\ loaded st1
    /\ shell st1 = shell st
    /\ docs (database st1) !! doc_id (self_document st) = Some (self_document st1)
    /\ doc_started (self_document st1) = Some (time_time h (shell st))
    /\ doc_node (self_document st1) = Some (getfqdn h)
    /\ doc_rev (self_document st1) = (doc_rev (self_document st) + 1)%N
    /\ doc_kwargs (self_document st1) = doc_kwargs (self_document st)
    /\ doc_results (self_document st1) = doc_results (self_document st)
    /\ doc_completed (self_document st1) = doc_completed (self_document st).
Proof.
  intros Hl. eexists. split; [exact (start_loaded h st Hl) |].
  unfold loaded. cbn. rewrite lookup_insert_eq. done.
Qed.

End LifecycleMore.

Section LifecycleMoreAtSamples.
Import Task Protocol Stored Samples MoreSamples.

Lemma finish_publishes_attachments_witness :
  loaded fresh_task /\ NoDup (map filename two_attachments)
  /\ exists st' d,
       finish host_ok attaching_result fresh_task = (Ok tt, st')
       /\ docs (database st') !! "job-1" = Some d
       /\ blobs (database st') !! ("job-1", "raw.log") = Some "log"
       /\ doc_completed d = Some 1000.
Proof.
  assert (loaded fresh_task) as Hl by reflexivity.
  assert (NoDup (map filename two_attachments)) as Hnd
    by (by apply (bool_decide_unpack _)).
  split; [exact Hl |]. split; [exact Hnd |].
  destruct (finish_publishes_attachments host_ok attaching_result two_attachments
              fresh_task eq_refl Hl Hnd)
    as (st' & d & Hfin & Hdoc & Hblobs & _ & Hdone & _).
  exists st', d. split; [exact Hfin |]. split; [exact Hdoc |].
  split; [| exact Hdone].
  apply (Hblobs {| filename := "raw.log"; contents := "log"; link_name := None |}).
  apply elem_of_cons. right. apply elem_of_cons. by left.
Defined.

Lemma call_records_result_witness :
  loaded fresh_task
  /\ exists st' d,
       call host_ok attaching_body fresh_task = (Ok tt, st')
       /\ docs (database st') !! "job-1" = Some d
       /\ doc_results d
          = Some {| success := true; reason := None; code := None; errors := None;
                    attachments := None;
                    attach_links :=
                      Some [{| link_id := "report.html"; link_shown := "Report" |}] |}
       /\ doc_completed d = Some 1000.
Proof.
  assert (loaded fresh_task) as Hl by reflexivity.
  split; [exact Hl |].
  destruct (call_records_result host_ok attaching_body fresh_task attaching_result []
              Hl eq_refl)
    as (st' & d & Hcall & _ & Hdoc & Hres & _ & _ & Hdone & _).
  exists st', d. repeat split; assumption.
Defined.

Lemma exit_leaves_document_unfinished_witness :
  loaded fresh_task
  /\ exists st',
       call host_ok exiting_body fresh_task = (Raise (mk_exn "SystemExit" false "1"), st')
       /\ (docs (database st') !! "job-1") ≫= doc_completed = None.
Proof.
  assert (loaded fresh_task) as Hl by reflexivity.
  split; [exact Hl |].
  destruct (exit_leaves_document_unfinished host_ok exiting_body fresh_task
              (mk_exn "SystemExit" false "1") [] Hl eq_refl eq_refl)
    as (st' & Hcall & _ & Hdoc & _ & Hdone).
  exists st'. split; [exact Hcall |].
  change "job-1" with (doc_id (self_document fresh_task)).
  rewrite Hdoc. cbn [mbind option_bind]. rewrite Hdone. reflexivity.
Defined.

Lemma start_marks_document_witness :
  loaded fresh_task
  /\ exists st1,
       start host_ok fresh_task = (Ok tt, st1)
       /\ doc_started (self_document st1) = Some 1000
       /\ doc_rev (self_document st1) = 2%N.
Proof.
  assert (loaded fresh_task) as Hl by reflexivity.
  split; [exact Hl |].
  destruct (start_marks_document host_ok fresh_task Hl)
    as (st1 & Hstart & _ & _ & _ & Hst & _ & Hrev & _).
  exists st1. split; [exact Hstart |]. split; [exact Hst | exact Hrev].
Defined.

End LifecycleMoreAtSamples.

(** * Properties of [DoxyCheck] and [scons_build] *)

Section DoxyMore.
Import Task Chartest Doxytest Samples MoreSamples.

Lemma count_from_nonneg (sub s : string) (k : nat) : 0 <= count_from sub s k.
Proof.
  revert k. induction s as [|c s IH]; intros k; [done |].
  cbn [count_from]. destruct k; [| apply IH].
  destruct (Py.startswith sub (String c s)); [| apply IH].
  specialize (IH (String.length sub - 1)%nat). lia.
Qed.

Lemma count_from_absent (sub s : string) (k : nat) :
  Py.contains sub s = false -> count_from sub s k = 0.
Proof.
  revert k. induction s as [|c s IH]; intros k; [done |].
  cbn [Py.contains count_from]. intros [Hs Hc]%orb_false_elim.
  rewrite Hs. destruct k; by apply IH.
Qed.

(** [s.count(sub) == 0] says that [sub] does not occur in [s]. *)
Lemma count_zero (sub s : string) :
  sub <> "" -> (Doxytest.count sub s =? 0) = negb (Py.contains sub s).
Proof.
  intros Hsub. destruct (Py.contains sub s) eqn:Hc.
  - apply Z.eqb_neq. unfold Doxytest.count.
    induction s as [|c s IH].
    + destruct sub; [done | discriminate Hc].
    + cbn [Py.contains] in Hc. cbn [count_from].
      destruct (Py.startswith sub (String c s)).
      * pose proof (count_from_nonneg sub s (String.length sub - 1)). lia.
      * by apply IH.
  - apply Z.eqb_eq. by apply count_from_absent.
Qed.

Section WithHost.
Context (h : host).

(** X20. With a non-empty working directory, [DoxyCheck.run] raises
    [AttributeError] right after a usable clone ([os] has no [join]), so it
    never gets to run doxygen. *)
Theorem doxy_run_stops_after_clone (doc : document) (wd : string)
    (tr tr1 : trace) (code : option Z) :
  let kwargs := default ∅ (doc_kwargs doc) in
  let sha := default VNone (kwargs !! "sha") in
  let git_url := default VNone (kwargs !! "git_url") in
  let base_repo_ref := default VNone (kwargs !! "base_repo_ref") in
  let base_repo_url := default VNone (kwargs !! "base_repo_url") in
  wd <> "" ->
  validate sha git_url base_repo_ref base_repo_url = None ->
  git_clone h git_url sha sha wd tr = (Ok code, tr1) ->
  unusable code = false ->
  Doxytest.run h doc wd tr
  = (Raise (AttributeError "'module' object has no attribute 'join'"), tr1).
Proof.
  intros kwargs sha git_url base_repo_ref base_repo_url Hwd Hvalid Hclone Huse.
  unfold Doxytest.run. fold kwargs. fold sha. fold git_url. fold base_repo_ref.
  fold base_repo_url. rewrite Hvalid, (bind_ok _ _ _ _ _ Hclone), Huse.
  unfold log_and_report. apply bind_raise.
  apply String.eqb_neq in Hwd. by rewrite Hwd.
Qed.

(** X21. With an empty working directory and a usable clone,
    [DoxyCheck.run] runs doxygen in the directory named by the revision,
    writes the page to doxy_check.html, and returns [success] exactly when
    the log does not contain "warning:", with the page as the attachment
    doxycheck.html. *)
Theorem doxy_success_iff_no_warning (doc : document) (tr tr1 : trace)
    (code : option Z) (log : string) :
  let kwargs := default ∅ (doc_kwargs doc) in
  let sha := default VNone (kwargs !! "sha") in
  let git_url := default VNone (kwargs !! "git_url") in
  let base_repo_ref := default VNone (kwargs !! "base_repo_ref") in
  let base_repo_url := default VNone (kwargs !! "base_repo_url") in
  let cmd := "cd " +:+ str sha +:+ " && doxygen dox/doxyfile-in" in
  validate sha git_url base_repo_ref base_repo_url = None ->
  git_clone h git_url sha sha "" tr = (Ok code, tr1) ->
  unusable code = false ->
  run_check_output h tr1 cmd = Ok log ->
  run_write h (tr1 ++ [CheckOutput cmd])%list "doxy_check.html" (html_page log) = Ok tt ->
  Doxytest.run h doc "" tr
  = (Ok {| success := negb (Py.contains "warning:" log);
           reason := None; code := None; errors := None;
           attachments := Some [ {| filename := "doxycheck.html";
                                    contents := html_page log;
                                    link_name := Some "doxycheck" |} ];
           attach_links := None |},
     (tr1 ++ [CheckOutput cmd; WriteFile "doxy_check.html" (html_page log)])%list).
Proof.
  intros kwargs sha git_url base_repo_ref base_repo_url cmd
    Hvalid Hclone Huse Hlog Hwrite.
  unfold Doxytest.run. fold kwargs. fold sha. fold git_url. fold base_repo_ref.
  fold base_repo_url. rewrite Hvalid, (bind_ok _ _ _ _ _ Hclone), Huse.
  unfold log_and_report. cbn [String.eqb negb]. unfold bind at 1. cbn [ret].
  assert (get_doxy_log h sha tr1 = (Ok (Some log), (tr1 ++ [CheckOutput cmd])%list))
    as Hget.
  { unfold get_doxy_log, bind, lift_outcome. cbn [os_path_join].
    unfold system_output, subprocess_check_output. cbn [truthy].
    change ("cd " +:+ str sha +:+ " && doxygen " +:+ _) with cmd. by rewrite Hlog. }
  rewrite (bind_ok _ _ _ _ _ Hget).
  unfold print_HTML, write_file, bind, ret. rewrite Hwrite.
  rewrite count_zero by done. by rewrite <- app_assoc.
Qed.

(** X22. When doxygen exits with an error
    ([subprocess.CalledProcessError]), [DoxyCheck.run] returns the failure
    'could not get doxy log' and writes no page. *)
Theorem doxy_log_failure (doc : document) (tr tr1 : trace)
    (code : option Z) (e : exn) :
  let kwargs := default ∅ (doc_kwargs doc) in
  let sha := default VNone (kwargs !! "sha") in
  let git_url := default VNone (kwargs !! "git_url") in
  let base_repo_ref := default VNone (kwargs !! "base_repo_ref") in
  let base_repo_url := default VNone (kwargs !! "base_repo_url") in
  let cmd := "cd " +:+ str sha +:+ " && doxygen dox/doxyfile-in" in
  validate sha git_url base_repo_ref base_repo_url = None ->
  git_clone h git_url sha sha "" tr = (Ok code, tr1) ->
  unusable code = false ->
  run_check_output h tr1 cmd = Raise e ->
  exc_class e = "CalledProcessError" ->
  Doxytest.run h doc "" tr
  = (Ok {| success := false; reason := Some "could not get doxy log"; code := None;
           errors := None; attachments := None; attach_links := None |},
     (tr1 ++ [CheckOutput cmd])%list).
Proof.
  intros kwargs sha git_url base_repo_ref base_repo_url cmd
    Hvalid Hclone Huse Hlog Hclass.
  unfold Doxytest.run. fold kwargs. fold sha. fold git_url. fold base_repo_ref.
  fold base_repo_url. rewrite Hvalid, (bind_ok _ _ _ _ _ Hclone), Huse.
  unfold log_and_report. cbn [String.eqb negb]. unfold bind at 1. cbn [ret].
  assert (get_doxy_log h sha tr1 = (Ok None, (tr1 ++ [CheckOutput cmd])%list)) as Hget.
  { unfold get_doxy_log, bind, lift_outcome. cbn [os_path_join].
    unfold system_output, subprocess_check_output. cbn [truthy].
    change ("cd " +:+ str sha +:+ " && doxygen " +:+ _) with cmd.
    by rewrite Hlog, Hclass. }
  by rewrite (bind_ok _ _ _ _ _ Hget).
Qed.

(** X23. When there is no env.sh in the working directory after
    [./configure], [scons_build] returns [(None, None)] and does not run
    scons: the configure command, if asked for, is the only one run, and
    its exit code is not looked at. *)
Theorem scons_build_without_env (read_file : trace -> string -> outcome string)
    (wd : string) (options configure_options : option (list string))
    (tr : trace) (env_file : string) (configure_code : Z) :
  let cd := if negb (String.eqb wd "") then "cd " +:+ wd +:+ " && " else "" in
  let conf := cd +:+ "./configure " +:+ Py.join " " (default [] configure_options) in
  os_path_join wd (VStr "env.sh") = Ok env_file ->
  run_call h tr conf = Ok configure_code ->
  path_exists h (tr ++ [Call conf])%list env_file = false ->
  path_exists h tr env_file = false ->
  Build.scons_build h read_file wd options true configure_options tr
  = (Ok (None, None), (tr ++ [Call conf])%list)
  /\ Build.scons_build h read_file wd options false configure_options tr
     = (Ok (None, None), tr).
Proof.
  intros cd conf Henv Hconf Hno1 Hno0.
  assert (system h ("./configure " +:+ Py.join " " (default [] configure_options))
            (VStr wd) tr = (Ok configure_code, (tr ++ [Call conf])%list)) as Hfirst.
  { rewrite system_call. cbn [truthy str]. fold cd. fold conf. by rewrite Hconf. }
  unfold Build.scons_build. split.
  - unfold bind at 1. unfold bind at 1. rewrite Hfirst. cbn [ret].
    unfold bind, lift_outcome. by rewrite Henv, Hno1.
  - unfold bind, lift_outcome, ret. by rewrite Henv, Hno0.
Qed.

(** X24. When env.sh is there, [scons_build] without configure runs
    one command, [source <env.sh> && scons <options> &> build_log.txt] in
    the working directory ("-j2" when no options are given), and returns
    its exit code, whatever it is, with the text of build_log.txt. *)
Theorem scons_build_returns_code_and_log
    (read_file : trace -> string -> outcome string)
    (wd : string) (options configure_options : option (list string))
    (tr : trace) (env_file : string) (code : Z) (log : string) :
  let cd := if negb (String.eqb wd "") then "cd " +:+ wd +:+ " && " else "" in
  let build := cd +:+ "source " +:+ env_file +:+ " && scons "
               +:+ Py.join " " (default ["-j2"] options) +:+ " &> build_log.txt" in
  os_path_join wd (VStr "env.sh") = Ok env_file ->
  path_exists h tr env_file = true ->
  run_call h tr build = Ok code ->
  read_file (tr ++ [Call build])%list (wd +:+ "/build_log.txt") = Ok log ->
  Build.scons_build h read_file wd options false configure_options tr
  = (Ok (Some code, Some log), (tr ++ [Call build])%list).
Proof.
  intros cd build Henv Hexists Hbuild Hread.
  unfold Build.scons_build. unfold bind at 1. cbn [ret].
  unfold bind at 1. unfold lift_outcome. rewrite Henv, Hexists. cbn [negb].
  rewrite (bind_ok _ _ tr (tr ++ [Call build])%list code).
  - unfold bind, ret. by rewrite Hread.
  - rewrite system_call. cbn [truthy str]. fold cd. fold build. by rewrite Hbuild.
Qed.

End WithHost.

Lemma doxy_run_stops_after_clone_witness :
  fst (git_clone host_ok (VStr "git://fork/repo.git") (VStr "abc123") (VStr "abc123")
         "/tmp/tmpXYZ" []) = Ok (Some 0)
  /\ fst (Doxytest.run host_ok (job kwargs_full) "/tmp/tmpXYZ" [])
     = Raise (AttributeError "'module' object has no attribute 'join'").
Proof.
  split; [reflexivity |].
  rewrite (doxy_run_stops_after_clone host_ok (job kwargs_full) "/tmp/tmpXYZ" []
             (snd (git_clone host_ok (VStr "git://fork/repo.git") (VStr "abc123")
                     (VStr "abc123") "/tmp/tmpXYZ" []))
             (Some 0)); reflexivity || discriminate.
Defined.

Lemma doxy_success_iff_no_warning_witness :
  run_check_output host_doxygen_warns [] "cd abc123 && doxygen dox/doxyfile-in"
  = Ok "a.hh:3: warning: no docs"
  /\ exists r,
       fst (Doxytest.run host_doxygen_warns (job kwargs_full) "" []) = Ok r
       /\ success r = false.
Proof.
  split; [reflexivity |].
  eexists. split.
  - rewrite (doxy_success_iff_no_warning host_doxygen_warns (job kwargs_full) []
               (snd (git_clone host_doxygen_warns (VStr "git://fork/repo.git")
                       (VStr "abc123") (VStr "abc123") "" []))
               (Some 0) "a.hh:3: warning: no docs"); reflexivity.
  - reflexivity.
Defined.

Lemma doxy_log_failure_witness :
  exc_class (CalledProcessError "Command returned non-zero exit status 1")
  = "CalledProcessError"
  /\ fst (Doxytest.run host_doxygen_fails (job kwargs_full) "" [])
     = Ok (failure "could not get doxy log" None).
Proof.
  split; [reflexivity |].
  rewrite (doxy_log_failure host_doxygen_fails (job kwargs_full) []
             (snd (git_clone host_doxygen_fails (VStr "git://fork/repo.git")
                     (VStr "abc123") (VStr "abc123") "" []))
             (Some 0) (CalledProcessError "Command returned non-zero exit status 1"));
    reflexivity.
Defined.

Lemma scons_build_without_env_witness :
  path_exists host_ok [] "/tmp/build/env.sh" = false
  /\ Build.scons_build host_ok (fun _ _ => Ok "") "/tmp/build" None true None []
     = (Ok (None, None), [Call "cd /tmp/build && ./configure "]).
Proof.
  split; [reflexivity |].
  apply (scons_build_without_env host_ok (fun _ _ => Ok "") "/tmp/build" None None []
           "/tmp/build/env.sh" 0); reflexivity.
Defined.

Lemma scons_build_returns_code_and_log_witness :
  path_exists host_target_exists [] "/tmp/build/env.sh" = true
  /\ Build.scons_build host_target_exists (fun _ _ => Ok "scons: done") "/tmp/build"
       None false None []
     = (Ok (Some 0, Some "scons: done"),
        [Call "cd /tmp/build && source /tmp/build/env.sh && scons -j2 &> build_log.txt"]).
Proof.
  split; [reflexivity |].
  apply (scons_build_returns_code_and_log host_target_exists
           (fun _ _ => Ok "scons: done") "/tmp/build" None None []
           "/tmp/build/env.sh" 0 "scons: done"); reflexivity.
Defined.

End DoxyMore.
